(** * ecg-firestore: the upload widget, the credentials panel and the record page

    A shallow embedding of the three source files of the application

    - [ImageUpload]      the attachment widget (file to data-URL encoder),
    - [FirestoreConfig]  the credentials panel (validate, test, persist),
    - [Index]            the page holding the pending medical record,

    together with the parts of the browser platform they call into
    ([localStorage], [JSON], [FileReader], the Firestore SDK).  Component
    state is a record, a handler is a function from the state at the call to
    the state after it and the trace of effects it performed, and the
    collaborators whose answers the code cannot know (the remote store, the
    clock, the file system) are explicit environments. *)

From Stdlib Require Import String Ascii NArith ZArith List Lia Bool.
From Stdlib Require Import Strings.Byte.
From stdpp Require Import base option gmap strings list pretty.
Import ListNotations.
Open Scope string_scope.
Open Scope list_scope.

(** ** JavaScript strings *)

(** A JavaScript string is embedded as a [string]; text outside ASCII is kept
    as the bytes of its UTF-8 form. *)

Module JS.

(** [ToBoolean] on a string: only the empty string is falsy. *)
Definition truthy (s : string) : bool :=
  match s with
  | EmptyString => false
  | String _ _ => true
  end.

(** [s.startsWith(p)] *)
Fixpoint startsWith (s p : string) {struct p} : bool :=
  match p, s with
  | EmptyString, _ => true
  | String a p1, String b s1 => Ascii.eqb a b && startsWith s1 p1
  | String _ _, EmptyString => false
  end.

(** [xs.join(sep)] on an array of strings. *)
Fixpoint join (sep : string) (xs : list string) : string :=
  match xs with
  | [] => EmptyString
  | [x] => x
  | x :: rest => x +:+ sep +:+ join sep rest
  end.

End JS.

(** ** JSON: the values, [JSON.parse] and [JSON.stringify] *)

(** The credentials of the remote store, as both source files declare them
    ([interface FirestoreCredentials]). *)
Record FirestoreCredentials := {
  projectId : string;
  apiKey : string;
  authDomain : string;
  storageBucket : string;
  messagingSenderId : string;
  appId : string;
  collectionName : string
}.

Module JSON.

(** What [JSON.parse] returns, and [undefined] for a property that is not
    there.  A number keeps its lexeme. *)
#[warnings="-register-all"]
Inductive Value :=
| JUndefined
| JNull
| JBool (b : bool)
| JNumber (lexeme : string)
| JString (s : string)
| JArray (items : list Value)
| JObject (members : list (string * Value)).

Definition dquote : ascii := "034"%char.
Definition backslash : ascii := "092"%char.

Definition is_ws (c : ascii) : bool :=
  Ascii.eqb c " " || Ascii.eqb c "009" || Ascii.eqb c "010"
  || Ascii.eqb c "013".

Fixpoint skip_ws (s : string) : string :=
  match s with
  | String c rest => if is_ws c then skip_ws rest else s
  | EmptyString => s
  end.

Definition is_digit (c : ascii) : bool :=
  (48 <=? N_of_ascii c)%N && (N_of_ascii c <=? 57)%N.

Definition hex_value (c : ascii) : option N :=
  let n := N_of_ascii c in
  if (48 <=? n)%N && (n <=? 57)%N then Some (n - 48)%N
  else if (65 <=? n)%N && (n <=? 70)%N then Some (n - 55)%N
  else if (97 <=? n)%N && (n <=? 102)%N then Some (n - 87)%N
  else None.

(** Text is held as its UTF-8 bytes.  These are the bytes of a code point;
    a surrogate that stands alone is a code unit and no code point, and is
    kept as a three-byte group of its own. *)
Definition utf8 (u : N) : string :=
  if (u <? 128)%N then String (ascii_of_N u) EmptyString
  else if (u <? 2048)%N then
    String (ascii_of_N (192 + u / 64))
      (String (ascii_of_N (128 + u mod 64)) EmptyString)
  else if (u <? 65536)%N then
    String (ascii_of_N (224 + u / 4096))
      (String (ascii_of_N (128 + (u / 64) mod 64))
        (String (ascii_of_N (128 + u mod 64)) EmptyString))
  else
    String (ascii_of_N (240 + u / 262144))
      (String (ascii_of_N (128 + (u / 4096) mod 64))
        (String (ascii_of_N (128 + (u / 64) mod 64))
          (String (ascii_of_N (128 + u mod 64)) EmptyString))).

Definition is_high_surrogate (u : N) : bool :=
  (55296 <=? u)%N && (u <? 56320)%N.

Definition is_low_surrogate (u : N) : bool :=
  (56320 <=? u)%N && (u <? 57344)%N.

(** The code unit of the six characters [\uXXXX], when they are an escape
    of a low surrogate. *)
Definition low_surrogate (b u h1 h2 h3 h4 : ascii) : option N :=
  if Ascii.eqb b "092" && Ascii.eqb u "u" then
    a ← hex_value h1; b ← hex_value h2;
    c ← hex_value h3; d ← hex_value h4;
    let v := (a * 4096 + b * 256 + c * 16 + d)%N in
    if is_low_surrogate v then Some v else None
  else None.

(** The code point of a surrogate pair. *)
Definition code_point (high low : N) : N :=
  (65536 + (high - 55296) * 1024 + (low - 56320))%N.

Definition simple_escape (e : ascii) : option ascii :=
  if Ascii.eqb e dquote then Some dquote
  else if Ascii.eqb e backslash then Some backslash
  else if Ascii.eqb e "/" then Some "/"%char
  else if Ascii.eqb e "b" then Some "008"%char
  else if Ascii.eqb e "f" then Some "012"%char
  else if Ascii.eqb e "n" then Some "010"%char
  else if Ascii.eqb e "r" then Some "013"%char
  else if Ascii.eqb e "t" then Some "009"%char
  else None.

(** The characters of a string literal after its opening quote: the
    decoded text and what follows the closing quote.  The escape of a high
    surrogate followed by the escape of a low one is one character. *)
Fixpoint string_body (s : string) : option (string * string) :=
  match s with
  | EmptyString => None
  | String c rest =>
      if Ascii.eqb c dquote then Some (EmptyString, rest)
      else if Ascii.eqb c backslash then
        match rest with
        | EmptyString => None
        | String e rest1 =>
            if Ascii.eqb e "u" then
              match rest1 with
              | String h1 (String h2 (String h3 (String h4 rest2))) =>
                  a ← hex_value h1; b ← hex_value h2;
                  c ← hex_value h3; d ← hex_value h4;
                  let u := (a * 4096 + b * 256 + c * 16 + d)%N in
                  if is_high_surrogate u then
                    match rest2 with
                    | String b1 (String u1 (String g1 (String g2
                        (String g3 (String g4 rest3))))) =>
                        match low_surrogate b1 u1 g1 g2 g3 g4 with
                        | Some low =>
                            '(t, r) ← string_body rest3;
                            Some (utf8 (code_point u low) +:+ t, r)
                        | None =>
                            '(t, r) ← string_body rest2;
                            Some (utf8 u +:+ t, r)
                        end
                    | _ =>
                        '(t, r) ← string_body rest2; Some (utf8 u +:+ t, r)
                    end
                  else
                    '(t, r) ← string_body rest2; Some (utf8 u +:+ t, r)
              | _ => None
              end
            else
              ch ← simple_escape e;
              '(t, r) ← string_body rest1;
              Some (String ch t, r)
        end
      else if (N_of_ascii c <? 32)%N then None
      else '(t, r) ← string_body rest; Some (String c t, r)
  end.

(** The longest run of digits at the head of [s], and the rest. *)
Fixpoint digits (s : string) : string * string :=
  match s with
  | String c rest =>
      if is_digit c then let '(ds, r) := digits rest in (String c ds, r)
      else (EmptyString, s)
  | EmptyString => (EmptyString, s)
  end.

Definition digits1 (s : string) : option (string * string) :=
  match digits s with
  | (EmptyString, _) => None
  | (ds, r) => Some (ds, r)
  end.

Definition int_part (s : string) : option (string * string) :=
  match s with
  | String c rest =>
      if Ascii.eqb c "0" then Some ("0", rest) else digits1 s
  | EmptyString => None
  end.

Definition frac_part (s : string) : option (string * string) :=
  match s with
  | String c rest =>
      if Ascii.eqb c "." then
        '(ds, r) ← digits1 rest; Some (String c ds, r)
      else Some (EmptyString, s)
  | EmptyString => Some (EmptyString, s)
  end.

Definition exp_part (s : string) : option (string * string) :=
  match s with
  | String c rest =>
      if Ascii.eqb c "e" || Ascii.eqb c "E" then
        match rest with
        | String g rest1 =>
            if Ascii.eqb g "+" || Ascii.eqb g "-" then
              '(ds, r) ← digits1 rest1; Some (String c (String g ds), r)
            else '(ds, r) ← digits1 rest; Some (String c ds, r)
        | EmptyString => None
        end
      else Some (EmptyString, s)
  | EmptyString => Some (EmptyString, s)
  end.

Definition number (s : string) : option (string * string) :=
  let '(sign, s0) :=
    match s with
    | String c rest => if Ascii.eqb c "-" then ("-", rest) else (EmptyString, s)
    | EmptyString => (EmptyString, s)
    end in
  '(i, s1) ← int_part s0;
  '(f, s2) ← frac_part s1;
  '(e, s3) ← exp_part s2;
  Some (sign +:+ i +:+ f +:+ e, s3).

Fixpoint strip_prefix (p s : string) : option string :=
  match p, s with
  | EmptyString, _ => Some s
  | String a p1, String b s1 =>
      if Ascii.eqb a b then strip_prefix p1 s1 else None
  | String _ _, EmptyString => None
  end.

Fixpoint value (fuel : nat) (s : string) : option (Value * string) :=
  match fuel with
  | O => None
  | S fuel =>
      match skip_ws s with
      | EmptyString => None
      | String c rest as s0 =>
          if Ascii.eqb c "{" then
            match skip_ws rest with
            | String d r =>
                if Ascii.eqb d "}" then Some (JObject [], r)
                else '(ms, r1) ← members fuel rest; Some (JObject ms, r1)
            | EmptyString => None
            end
          else if Ascii.eqb c "[" then
            match skip_ws rest with
            | String d r =>
                if Ascii.eqb d "]" then Some (JArray [], r)
                else '(vs, r1) ← elements fuel rest; Some (JArray vs, r1)
            | EmptyString => None
            end
          else if Ascii.eqb c dquote then
            '(t, r) ← string_body rest; Some (JString t, r)
          else if Ascii.eqb c "t" then
            r ← strip_prefix "true" s0; Some (JBool true, r)
          else if Ascii.eqb c "f" then
            r ← strip_prefix "false" s0; Some (JBool false, r)
          else if Ascii.eqb c "n" then
            r ← strip_prefix "null" s0; Some (JNull, r)
          else '(lexeme, r) ← number s0; Some (JNumber lexeme, r)
      end
  end
with elements (fuel : nat) (s : string) : option (list Value * string) :=
  match fuel with
  | O => None
  | S fuel =>
      '(v, r) ← value fuel s;
      match skip_ws r with
      | String c r1 =>
          if Ascii.eqb c "," then
            '(vs, r2) ← elements fuel r1; Some (v :: vs, r2)
          else if Ascii.eqb c "]" then Some ([v], r1)
          else None
      | EmptyString => None
      end
  end
with members (fuel : nat) (s : string)
  : option (list (string * Value) * string) :=
  match fuel with
  | O => None
  | S fuel =>
      match skip_ws s with
      | String q r =>
          if Ascii.eqb q dquote then
            '(k, r1) ← string_body r;
            match skip_ws r1 with
            | String c r2 =>
                if Ascii.eqb c ":" then
                  '(v, r3) ← value fuel r2;
                  match skip_ws r3 with
                  | String d r4 =>
                      if Ascii.eqb d "," then
                        '(ms, r5) ← members fuel r4; Some ((k, v) :: ms, r5)
                      else if Ascii.eqb d "}" then Some ([(k, v)], r4)
                      else None
                  | EmptyString => None
                  end
                else None
            | EmptyString => None
            end
          else None
      | EmptyString => None
      end
  end.

(** [JSON.parse(text)]: [None] when it throws a [SyntaxError].  Every
    recursive call but one in two consumes a character, so twice the
    length of the text is fuel enough. *)
Definition parse (text : string) : option Value :=
  '(v, r) ← value (2 * String.length text + 2) text;
  match skip_ws r with
  | EmptyString => Some v
  | String _ _ => None
  end.

(** [v[key]] on an object built by [JSON.parse]: of two members with the
    same name the later one stands. *)
Fixpoint lookup_member (key : string) (ms : list (string * Value))
  : option Value :=
  match ms with
  | [] => None
  | (k, v) :: rest =>
      match lookup_member key rest with
      | Some w => Some w
      | None => if String.eqb k key then Some v else None
      end
  end.

(** [v.key]: a [TypeError] on [null] and [undefined]; [undefined] when the
    value has no such property.  The names this program reads are own
    properties of the parsed object or nothing: no prototype has them. *)
Definition get (v : Value) (key : string) : option Value :=
  match v with
  | JUndefined | JNull => None
  | JObject ms => Some (default JUndefined (lookup_member key ms))
  | _ => Some JUndefined
  end.

Definition hex_digit (n : N) : ascii :=
  if (n <? 10)%N then ascii_of_N (48 + n) else ascii_of_N (87 + n).

(** [QuoteJSONString] on one character. *)
Definition escape_char (c : ascii) : string :=
  let two (e : ascii) := String backslash (String e EmptyString) in
  if Ascii.eqb c dquote then two dquote
  else if Ascii.eqb c backslash then two backslash
  else if Ascii.eqb c "008" then two "b"%char
  else if Ascii.eqb c "012" then two "f"%char
  else if Ascii.eqb c "010" then two "n"%char
  else if Ascii.eqb c "013" then two "r"%char
  else if Ascii.eqb c "009" then two "t"%char
  else if (N_of_ascii c <? 32)%N then
    String backslash ("u00" +:+
      String (hex_digit (N_of_ascii c / 16))
        (String (hex_digit (N_of_ascii c mod 16)) EmptyString))
  else String c EmptyString.

Fixpoint escape (s : string) : string :=
  match s with
  | EmptyString => EmptyString
  | String c rest => escape_char c +:+ escape rest
  end.

Definition quote (s : string) : string :=
  String dquote (escape s +:+ String dquote EmptyString).

Definition member (key value : string) : string :=
  quote key +:+ ":" +:+ quote value.

(** [JSON.stringify(credentials)] on the seven string properties, in the
    order the component state lists them. *)
Definition stringify (c : FirestoreCredentials) : string :=
  "{" +:+ member "projectId" (projectId c)
  +:+ "," +:+ member "apiKey" (apiKey c)
  +:+ "," +:+ member "authDomain" (authDomain c)
  +:+ "," +:+ member "storageBucket" (storageBucket c)
  +:+ "," +:+ member "messagingSenderId" (messagingSenderId c)
  +:+ "," +:+ member "appId" (appId c)
  +:+ "," +:+ member "collectionName" (collectionName c)
  +:+ "}".


(** The cast of a parsed value to [FirestoreCredentials] is unchecked in
    the source; the typed state can hold exactly the objects of
    [of_credentials].  The code loads any other parsed value as well, an
    object with the same members in another order among them: such a value
    is outside the typed state, and the result is [None] for it. *)
Definition as_credentials (v : Value) : option FirestoreCredentials :=
  match v with
  | JObject [ (k1, JString v1); (k2, JString v2); (k3, JString v3);
              (k4, JString v4); (k5, JString v5); (k6, JString v6);
              (k7, JString v7) ] =>
      if String.eqb k1 "projectId" && String.eqb k2 "apiKey"
         && String.eqb k3 "authDomain" && String.eqb k4 "storageBucket"
         && String.eqb k5 "messagingSenderId" && String.eqb k6 "appId"
         && String.eqb k7 "collectionName"
      then Some {| projectId := v1; apiKey := v2; authDomain := v3;
                   storageBucket := v4; messagingSenderId := v5;
                   appId := v6; collectionName := v7 |}
      else None
  | _ => None
  end.

End JSON.

(** ** Base64 (RFC 4648) and the data-URL form of a file

    Both are the browser's, behind [FileReader]; they are written out here
    after their standards. *)

Module Base64.

Definition alphabet : string :=
  "ABCDEFGHIJKLMNOPQRSTUVWXYZabcdefghijklmnopqrstuvwxyz0123456789+/".

Definition pad : ascii := "="%char.

(** The character of a six-bit value. *)
Definition digit (i : N) : ascii :=
  match String.get (N.to_nat i) alphabet with
  | Some c => c
  | None => pad
  end.

Fixpoint index_of (c : ascii) (s : string) : option N :=
  match s with
  | EmptyString => None
  | String d rest =>
      if Ascii.eqb c d then Some 0%N else N.succ <$> index_of c rest
  end.

(** The six-bit value of a character, when it is in the alphabet. *)
Definition value (c : ascii) : option N := index_of c alphabet.

Definition octet (b : byte) : N := Byte.to_N b.

(** Three octets make four digits; a final group of one or two octets is
    padded with zero bits and closed with [=]. *)
Fixpoint encode (bs : list byte) : string :=
  match bs with
  | [] => EmptyString
  | [a] =>
      let n := (octet a * 16)%N in
      String (digit (n / 64)) (String (digit (n mod 64))
        (String pad (String pad EmptyString)))
  | [a; b] =>
      let n := ((octet a * 256 + octet b) * 4)%N in
      String (digit (n / 4096)) (String (digit ((n / 64) mod 64))
        (String (digit (n mod 64)) (String pad EmptyString)))
  | a :: b :: c :: rest =>
      let n := (octet a * 65536 + octet b * 256 + octet c)%N in
      String (digit (n / 262144)) (String (digit ((n / 4096) mod 64))
        (String (digit ((n / 64) mod 64)) (String (digit (n mod 64))
          (encode rest))))
  end.

Definition is_pad (c : ascii) : bool := Ascii.eqb c pad.

(** Decoding reads four characters at a time; padding is accepted only in
    the last group, and the bits it stands for are dropped. *)
Fixpoint decode (s : string) : option (list byte) :=
  match s with
  | EmptyString => Some []
  | String c1 (String c2 (String c3 (String c4 rest))) =>
      if is_pad c3 then
        if is_pad c4 then
          match rest with
          | EmptyString =>
              v1 ← value c1; v2 ← value c2;
              a ← Byte.of_N ((v1 * 64 + v2) / 16);
              Some [a]
          | String _ _ => None
          end
        else None
      else if is_pad c4 then
        match rest with
        | EmptyString =>
            v1 ← value c1; v2 ← value c2; v3 ← value c3;
            let n := ((v1 * 4096 + v2 * 64 + v3) / 4)%N in
            a ← Byte.of_N (n / 256); b ← Byte.of_N (n mod 256);
            Some [a; b]
        | String _ _ => None
        end
      else
        v1 ← value c1; v2 ← value c2; v3 ← value c3; v4 ← value c4;
        let n := (v1 * 262144 + v2 * 4096 + v3 * 64 + v4)%N in
        a ← Byte.of_N (n / 65536); b ← Byte.of_N ((n / 256) mod 256);
        c ← Byte.of_N (n mod 256);
        tail ← decode rest;
        Some (a :: b :: c :: tail)
  | String _ _ => None
  end.

End Base64.


Module DataURL.

(** [split_last c s]: the text before and after the last [c] of [s]. *)
Fixpoint split_last (c : ascii) (s : string) : option (string * string) :=
  match s with
  | EmptyString => None
  | String d rest =>
      match split_last c rest with
      | Some (h, p) => Some (String d h, p)
      | None => if Ascii.eqb d c then Some (EmptyString, rest) else None
      end
  end.

(** [split_first c s]: the text before and after the first [c] of [s]. *)
Fixpoint split_first (c : ascii) (s : string) : option (string * string) :=
  match s with
  | EmptyString => None
  | String d rest =>
      if Ascii.eqb d c then Some (EmptyString, rest)
      else '(h, p) ← split_first c rest; Some (String d h, p)
  end.

Fixpoint occurs (c : ascii) (s : string) : bool :=
  match s with
  | EmptyString => false
  | String d rest => Ascii.eqb d c || occurs c rest
  end.

Fixpoint ends_with (s suffix : string) : bool :=
  String.eqb s suffix ||
  match s with
  | EmptyString => false
  | String _ rest => ends_with rest suffix
  end.

(** The data-URL form of RFC 2397 with a base64 body:
    [data:<media type>;base64,<payload>]. *)
Definition make (mediaType : string) (bs : list byte) : string :=
  "data:" +:+ mediaType +:+ ";base64," +:+ Base64.encode bs.

Definition decode_parts (parts : option (string * string))
  : option (list byte) :=
  '(header, payload) ← parts;
  if JS.startsWith header "data:" && ends_with header ";base64"
  then Base64.decode payload
  else None.

(** The source never decodes what it encoded (the text goes to an [img]
    element and to the remote store), so the decoder is stated here.  The
    payload of such a URL is what follows its last comma, since the base64
    alphabet has none; the header must open with [data:] and close with
    [;base64]. *)
Definition decode (url : string) : option (list byte) :=
  decode_parts (split_last ","%char url).

(** RFC 2397 reads a data URL up to its first comma. *)
Definition decode_rfc2397 (url : string) : option (list byte) :=
  decode_parts (split_first ","%char url).

End DataURL.

(** ** The browser: files, promises, storage, notices *)

Module FileAPI.

(** A [File]: its name, its declared media type and its bytes. *)
Record File := { name : string; type : string; content : list byte }.

(** What a [FileReader] fires once [readAsDataURL] is over; [result] is the
    reader's [result] property at that time. *)
Inductive ReaderEvent :=
| onload (result : string)
| onerror (e : string).

(** The browser's [reader.readAsDataURL(file)], after the File API: the
    reader ends with [result] holding the data URL of the bytes of the file
    under its media type, or with an error.  [readable] says which: whether
    the bytes of the file could be read.  The media type is the declared
    type of the file as it stands, which is what a reader writes for the
    types a browser gives the files of a picker or of a drop; for a [File]
    constructed with a type that does not parse as a media type a reader
    writes [application/octet-stream] in its place, so that the header of
    the URL differs there and its payload does not. *)
Definition readAsDataURL (readable : bool) (file : File) : ReaderEvent :=
  if readable then onload (DataURL.make (type file) (content file))
  else onerror "NotReadableError".

End FileAPI.

(** A settled promise, and the outcome of a call that may throw. *)
Inductive Settled (A : Type) :=
| Resolved (v : A)
| Rejected (reason : string).
Arguments Resolved {A} v.
Arguments Rejected {A} reason.

Definition localStorage_key : string := "firestore_credentials".

(** [localStorage.getItem(key)]: [None] is [null]. *)
Definition getItem (storage : gmap string string) (key : string)
  : option string := storage !! key.

(** [localStorage.setItem(key, value)], taken to succeed (no quota). *)
Definition setItem (key value : string) (storage : gmap string string)
  : gmap string string := <[key := value]> storage.

Inductive Variant := default_variant | destructive.

Record Toast := { title : string; description : string; variant : Variant }.

Record MedicalRecord := { ecg : string; laudo : string; descricao : string }.

(** ** The Firestore SDK *)

Module SDK.

Record FirebaseOptions := {
  opt_apiKey : JSON.Value;
  opt_authDomain : JSON.Value;
  opt_projectId : JSON.Value;
  opt_storageBucket : JSON.Value;
  opt_messagingSenderId : JSON.Value;
  opt_appId : JSON.Value
}.

Record App := { options : FirebaseOptions; app_name : string }.

Record CollectionRef := { db : App; path : JSON.Value }.

Record DocRef := { parent : CollectionRef; id : string }.

(** A field of a written document.  [VIsoString t] is the text
    [new Date(t).toISOString()] and [VDate t] the date object of instant
    [t] (milliseconds since the epoch). *)
Inductive FieldValue :=
| VString (s : string)
| VBool (b : bool)
| VIsoString (t : Z)
| VDate (t : Z).

Definition Document := list (string * FieldValue).

(** The collaborator behind the SDK: which local calls throw, and how the
    two remote calls settle. *)
Record Firebase := {
  initializeApp_error : FirebaseOptions → string → option string;
  getFirestore_error : App → option string;
  collection_error : App → JSON.Value → option string;
  addDoc_outcome : CollectionRef → Document → Settled string;
  deleteDoc_outcome : DocRef → Settled unit
}.

End SDK.

(** ** Effects and handlers *)

(** What a handler does besides computing: the state setters of the three
    components, the callbacks to the owner, and the calls on the browser and
    on the remote store, in the order of the calls. *)
Inductive Effect :=
| SetIsDragging (b : bool)
| SetIsLoading (b : bool)
| SetCredentials (c : FirestoreCredentials)
| SetActiveTab (tab : string)
| SetIsConnected (b : bool)
| SetIsSubmitting (b : bool)
| SetRecord (r : MedicalRecord)
| OnChange (value : string)
| OnCredentialsSave (c : FirestoreCredentials)
| PreventDefault
| Alert (message : string)
| ConsoleError (label reason : string)
| ConsoleLog (label : string)
| Toasted (t : Toast)
| StorageSetItem (key value : string)
| InitializeApp (app : SDK.App)
| AddDoc (coll : SDK.CollectionRef) (doc : SDK.Document)
| DeleteDoc (ref : SDK.DocRef).

(** A run of handler code: the effects so far, and its value or the
    exception that ended it.  A handler reads the state of the render it was
    created in; its setters take effect afterwards, which is why they are in
    the trace. *)
Definition Run (A : Type) : Type := list Effect * Settled A.

Definition ret {A} (a : A) : Run A := ([], Resolved a).

Definition throw {A} (reason : string) : Run A := ([], Rejected reason).

Definition emit (e : Effect) : Run unit := ([e], Resolved tt).

Definition bind {A B} (m : Run A) (k : A → Run B) : Run B :=
  match m with
  | (t, Resolved a) => let '(t', r) := k a in ((t ++ t')%list, r)
  | (t, Rejected e) => (t, Rejected e)
  end.

#[global] Instance Run_ret : MRet Run := @ret.
#[global] Instance Run_bind : MBind Run := λ A B k m, bind m k.

(** [try { body } catch (error) { handler }] *)
Definition try_catch {A} (body : Run A) (handler : string → Run A) : Run A :=
  match body with
  | (t, Resolved a) => (t, Resolved a)
  | (t, Rejected e) => let '(t', r) := handler e in ((t ++ t')%list, r)
  end.

(** [try { body } finally { cleanup }] *)
Definition try_finally {A} (body : Run A) (cleanup : Run unit) : Run A :=
  match body, cleanup with
  | (t, r), (t', Resolved _) => ((t ++ t')%list, r)
  | (t, _), (t', Rejected e) => ((t ++ t')%list, Rejected e)
  end.

Definition trace {A} (m : Run A) : list Effect := m.1.

Definition outcome {A} (m : Run A) : Settled A := m.2.

Definition is_remote (e : Effect) : bool :=
  match e with
  | AddDoc _ _ | DeleteDoc _ => true
  | _ => false
  end.

(** The calls on the remote store among the effects of a run. *)
Definition remote_calls (t : list Effect) : list Effect :=
  List.filter is_remote t.

(** The effects that touch neither a component nor local storage nor the
    user: calls on the SDK and lines on the console. *)
Definition sdk_or_console (e : Effect) : Prop :=
  match e with
  | InitializeApp _ | AddDoc _ _ | DeleteDoc _
  | ConsoleError _ _ | ConsoleLog _ => True
  | _ => False
  end.

Definition toasts (t : list Effect) : list Toast :=
  omap (λ e, match e with Toasted x => Some x | _ => None end) t.

(** The values handed to the owner through [onChange]. *)
Definition changes (t : list Effect) : list string :=
  omap (λ e, match e with OnChange v => Some v | _ => None end) t.

(** The writes to local storage, and the credentials handed to the owner
    through [onCredentialsSave]. *)
Definition stored (t : list Effect) : list (string * string) :=
  omap (λ e, match e with StorageSetItem k v => Some (k, v) | _ => None end) t.

Definition saves_reported (t : list Effect) : list FirestoreCredentials :=
  omap (λ e, match e with OnCredentialsSave c => Some c | _ => None end) t.

Definition alerts (t : list Effect) : list string :=
  omap (λ e, match e with Alert m => Some m | _ => None end) t.

(** Local storage after the effects of a run. *)
Definition storage_after (t : list Effect) (storage : gmap string string)
  : gmap string string :=
  foldl (λ st e, match e with
                 | StorageSetItem k v => setItem k v st
                 | _ => st
                 end) storage t.

Module Firestore.
Import SDK.

Definition initializeApp (fb : Firebase) (o : FirebaseOptions) (name : string)
  : Run App :=
  match initializeApp_error fb o name with
  | Some e => throw e
  | None =>
      let app := {| options := o; app_name := name |} in
      emit (InitializeApp app);; mret app
  end.

Definition getFirestore (fb : Firebase) (app : App) : Run App :=
  match getFirestore_error fb app with
  | Some e => throw e
  | None => mret app
  end.

Definition collection (fb : Firebase) (d : App) (p : JSON.Value)
  : Run CollectionRef :=
  match collection_error fb d p with
  | Some e => throw e
  | None => mret {| db := d; path := p |}
  end.

(** [await addDoc(coll, doc)] *)
Definition addDoc (fb : Firebase) (coll : CollectionRef) (doc : Document)
  : Run DocRef :=
  emit (AddDoc coll doc);;
  match addDoc_outcome fb coll doc with
  | Resolved i => mret {| parent := coll; id := i |}
  | Rejected e => throw e
  end.

(** [await deleteDoc(ref)] *)
Definition deleteDoc (fb : Firebase) (ref : DocRef) : Run unit :=
  emit (DeleteDoc ref);;
  match deleteDoc_outcome fb ref with
  | Resolved _ => mret tt
  | Rejected e => throw e
  end.

End Firestore.

(** What the world answers during one run of a handler: the remote store,
    and the clock ([now k] is its [k]-th reading in the run). *)
Record World := { firebase : SDK.Firebase; now : nat → Z }.

(** [await p] *)
Definition await {A} (p : Settled A) : Run A :=
  match p with
  | Resolved v => mret v
  | Rejected e => throw e
  end.

(** ** ImageUpload: the attachment widget *)

Module ImageUpload.
Import FileAPI.

Record State := { isDragging : bool; isLoading : bool }.

Definition initial : State := {| isDragging := false; isLoading := false |}.

Definition convertToBase64 (readable : bool) (file : File) : Settled string :=
  match readAsDataURL readable file with
  | onload result =>
      if JS.truthy result then Resolved result
      else Rejected "Failed to read file"
  | onerror e => Rejected e
  end.

Definition images_only : string :=
  "Por favor, selecione apenas arquivos de imagem.".

Definition processing_failed : string :=
  "Erro ao processar a imagem. Tente novamente.".

Definition handleFileUpload (readable : bool) (file : File) : Run unit :=
  if negb (JS.startsWith (type file) "image/") then emit (Alert images_only)
  else
    emit (SetIsLoading true);;
    try_finally
      (try_catch
         (base64 ← await (convertToBase64 readable file);
          emit (OnChange base64))
         (λ error,
            emit (ConsoleError "Error converting file:" error);;
            emit (Alert processing_failed)))
      (emit (SetIsLoading false)).

Definition handleDrop (readable : bool) (files : list File) : Run unit :=
  emit PreventDefault;;
  emit (SetIsDragging false);;
  match files with
  | file :: _ => handleFileUpload readable file
  | [] => mret tt
  end.

Definition handleDragOver : Run unit :=
  emit PreventDefault;; emit (SetIsDragging true).

Definition handleDragLeave : Run unit :=
  emit PreventDefault;; emit (SetIsDragging false).

(** [e.target.files] is a list of files or [null]. *)
Definition handleFileSelect (readable : bool) (files : option (list File))
  : Run unit :=
  match files with
  | Some (file :: _) => handleFileUpload readable file
  | _ => mret tt
  end.

Definition clearImage : Run unit := emit (OnChange EmptyString).

(** *** The handler around its suspension

    [handleFileUpload] runs up to [await convertToBase64(file)], and the rest
    runs when the reader has fired.  [handleFileUpload_begin] is the first
    part and returns the file whose read it began, if any; [handleFileUpload_resume] is the
    second. *)

Definition handleFileUpload_begin (file : File) : Run (option File) :=
  if negb (JS.startsWith (type file) "image/") then
    emit (Alert images_only);; mret None
  else emit (SetIsLoading true);; mret (Some file).

Definition handleDrop_begin (files : list File) : Run (option File) :=
  emit PreventDefault;;
  emit (SetIsDragging false);;
  match files with
  | file :: _ => handleFileUpload_begin file
  | [] => mret None
  end.

Definition handleFileSelect_begin (files : option (list File))
  : Run (option File) :=
  match files with
  | Some (file :: _) => handleFileUpload_begin file
  | _ => mret None
  end.

Definition handleFileUpload_resume (settled : Settled string) : Run unit :=
  try_finally
    (try_catch
       (base64 ← await settled; emit (OnChange base64))
       (λ error,
          emit (ConsoleError "Error converting file:" error);;
          emit (Alert processing_failed)))
    (emit (SetIsLoading false)).

(** *** The mounted widget

    The widget as [Index] mounts it: [value] is the field of the record the
    owner passes down and [onChange] writes that field; [reading] are the
    files whose read the mounted instance began and which is in flight.

    The widget sits in the content of the data tab, which is rendered only
    while that tab is the active one: choosing the other tab unmounts the
    widget and choosing the data tab again mounts a new instance, with the
    state of [useState] anew.  Nothing cancels a read at the unmount:
    [orphans] are the files whose read an earlier instance began and which
    is still in flight. *)

Record Widget := {
  value : string;
  state : State;
  reading : list File;
  orphans : list File
}.

Definition mounted (v : string) : Widget :=
  {| value := v; state := initial; reading := []; orphans := [] |}.

Definition apply_effect (w : Widget) (e : Effect) : Widget :=
  match e with
  | SetIsDragging b =>
      {| value := value w;
         state := {| isDragging := b; isLoading := isLoading (state w) |};
         reading := reading w; orphans := orphans w |}
  | SetIsLoading b =>
      {| value := value w;
         state := {| isDragging := isDragging (state w); isLoading := b |};
         reading := reading w; orphans := orphans w |}
  | OnChange v =>
      {| value := v; state := state w; reading := reading w;
         orphans := orphans w |}
  | _ => w
  end.

Definition apply_effects (t : list Effect) (w : Widget) : Widget :=
  foldl apply_effect w t.

(** The effects of a handler of an instance that is no longer mounted: its
    setters do nothing, and [onChange], which is the owner's, still writes
    the field. *)
Definition apply_unmounted_effect (w : Widget) (e : Effect) : Widget :=
  match e with
  | OnChange v =>
      {| value := v; state := state w; reading := reading w;
         orphans := orphans w |}
  | _ => w
  end.

Definition apply_unmounted_effects (t : list Effect) (w : Widget) : Widget :=
  foldl apply_unmounted_effect w t.

(** What the widget shows. [file_input] is [None] when the input element is
    not rendered and [Some disabled] when it is. *)
Record View := {
  preview : option string;
  clear_button : bool;
  file_input : option bool;
  overlay : bool;
  hover : bool
}.

Definition render (w : Widget) : View :=
  {| preview := if JS.truthy (value w) then Some (value w) else None;
     clear_button := JS.truthy (value w);
     file_input :=
       if JS.truthy (value w) then None else Some (isLoading (state w));
     overlay := isLoading (state w);
     hover := isDragging (state w) |}.

Inductive Event :=
| Drop (files : list File)
| DragOver
| DragLeave
| FileSelect (files : option (list File))
| ClearClick
| ReaderFired (k : nat) (readable : bool)
| Remount
| OrphanFired (k : nat) (readable : bool)
| RecordReset.

(** The first part of a handler on the widget: its effects, and the read it
    began joins those in flight. *)
Definition launch (m : Run (option File)) (w : Widget) : Widget :=
  let w' := apply_effects (trace m) w in
  match outcome m with
  | Resolved (Some file) =>
      {| value := value w'; state := state w';
         reading := reading w' ++ [file]; orphans := orphans w' |}
  | _ => w'
  end.

(** One event on the widget; [None] when the page offers no way to raise it
    (an input that is not rendered or is disabled, a button that is not
    rendered, a read that is not in flight).  [ReaderFired k] is the reader
    of the [k]-th read of the mounted instance firing.  [Remount] is the
    other tab chosen and the data tab chosen again; a reader that fires
    while the other tab is shown is a [ReaderFired] before the [Remount],
    and what it does to the state of the widget is gone with the remount,
    as on the page.  [OrphanFired k] is the reader of the [k]-th read of an
    earlier instance firing after the data tab is back.  [RecordReset] is
    the owner emptying the record after a submission that went through. *)
Definition dispatch (w : Widget) (e : Event) : option Widget :=
  match e with
  | Drop files => Some (launch (handleDrop_begin files) w)
  | DragOver => Some (apply_effects (trace handleDragOver) w)
  | DragLeave => Some (apply_effects (trace handleDragLeave) w)
  | FileSelect files =>
      match file_input (render w) with
      | Some false => Some (launch (handleFileSelect_begin files) w)
      | _ => None
      end
  | ClearClick =>
      if clear_button (render w) then
        Some (apply_effects (trace clearImage) w)
      else None
  | ReaderFired k readable =>
      file ← reading w !! k;
      let w' :=
        apply_effects
          (trace (handleFileUpload_resume (convertToBase64 readable file))) w in
      Some {| value := value w'; state := state w';
              reading := delete k (reading w'); orphans := orphans w' |}
  | Remount =>
      Some {| value := value w; state := initial; reading := [];
              orphans := orphans w ++ reading w |}
  | OrphanFired k readable =>
      file ← orphans w !! k;
      let w' :=
        apply_unmounted_effects
          (trace (handleFileUpload_resume (convertToBase64 readable file))) w in
      Some {| value := value w'; state := state w'; reading := reading w';
              orphans := delete k (orphans w') |}
  | RecordReset =>
      Some {| value := EmptyString; state := state w; reading := reading w;
              orphans := orphans w |}
  end.

Fixpoint dispatch_all (w : Widget) (es : list Event) : option Widget :=
  match es with
  | [] => Some w
  | e :: rest => w' ← dispatch w e; dispatch_all w' rest
  end.

(** The widget is busy when it shows the overlay. *)
Definition busy (w : Widget) : bool := overlay (render w).

End ImageUpload.

(** ** FirestoreConfig: the credentials panel *)

Module FirestoreConfig.
Import SDK.

Record State := { isLoading : bool; credentials : FirestoreCredentials }.

Definition initial : State :=
  {| isLoading := false;
     credentials :=
       {| projectId := EmptyString;
          apiKey := EmptyString;
          authDomain := EmptyString;
          storageBucket := EmptyString;
          messagingSenderId := EmptyString;
          appId := EmptyString;
          collectionName := "medical_records" |} |}.

(** What the effect that runs on mount does with local storage.  The parsed
    value goes into the state unchecked; [LoadsUntyped] is that call with a
    value that is no [FirestoreCredentials], which the typed state of this
    embedding cannot hold. *)
Inductive MountOutcome :=
| KeepsState (t : list Effect)
| Loads (c : FirestoreCredentials)
| LoadsUntyped (v : JSON.Value).

Definition useEffect_mount (storage : gmap string string) : MountOutcome :=
  match getItem storage localStorage_key with
  | Some saved =>
      if JS.truthy saved then
        match JSON.parse saved with
        | Some parsedCredentials =>
            match JSON.as_credentials parsedCredentials with
            | Some c => Loads c
            | None => LoadsUntyped parsedCredentials
            end
        | None =>
            KeepsState
              [ConsoleError "Error parsing saved credentials:" "SyntaxError"]
        end
      else KeepsState []
  | None => KeepsState []
  end.

Definition apply_effect (s : State) (e : Effect) : State :=
  match e with
  | SetIsLoading b => {| isLoading := b; credentials := credentials s |}
  | SetCredentials c => {| isLoading := isLoading s; credentials := c |}
  | _ => s
  end.

Definition apply_effects (t : list Effect) (s : State) : State :=
  foldl apply_effect s t.

(** The state of the panel once mounted, when it stays within its type. *)
Definition mount (storage : gmap string string) : option State :=
  match useEffect_mount storage with
  | KeepsState t => Some (apply_effects t initial)
  | Loads c => Some (apply_effects [SetCredentials c] initial)
  | LoadsUntyped _ => None
  end.

(** [credentials[field]]: [None] is [undefined]. *)
Definition index (c : FirestoreCredentials) (field : string)
  : option string :=
  if String.eqb field "projectId" then Some (projectId c)
  else if String.eqb field "apiKey" then Some (apiKey c)
  else if String.eqb field "authDomain" then Some (authDomain c)
  else if String.eqb field "storageBucket" then Some (storageBucket c)
  else if String.eqb field "messagingSenderId"
    then Some (messagingSenderId c)
  else if String.eqb field "appId" then Some (appId c)
  else if String.eqb field "collectionName" then Some (collectionName c)
  else None.

(** [{...prev, [field]: value}] for a [field] that is a key of the
    credentials. *)
Definition with_field (c : FirestoreCredentials) (field value : string)
  : FirestoreCredentials :=
  let pick name old := if String.eqb field name then value else old in
  {| projectId := pick "projectId" (projectId c);
     apiKey := pick "apiKey" (apiKey c);
     authDomain := pick "authDomain" (authDomain c);
     storageBucket := pick "storageBucket" (storageBucket c);
     messagingSenderId := pick "messagingSenderId" (messagingSenderId c);
     appId := pick "appId" (appId c);
     collectionName := pick "collectionName" (collectionName c) |}.

Definition handleInputChange (s : State) (field value : string) : Run unit :=
  emit (SetCredentials (with_field (credentials s) field value)).

Definition firebaseConfig (c : FirestoreCredentials) : FirebaseOptions :=
  {| opt_apiKey := JSON.JString (apiKey c);
     opt_authDomain := JSON.JString (authDomain c);
     opt_projectId := JSON.JString (projectId c);
     opt_storageBucket := JSON.JString (storageBucket c);
     opt_messagingSenderId := JSON.JString (messagingSenderId c);
     opt_appId := JSON.JString (appId c) |}.

Definition test_document (w : World) : Document :=
  [ ("test", VBool true);
    ("timestamp", VIsoString (now w 1));
    ("connectionTest", VString "success") ].

Definition testConnection (w : World) (credentialsToTest : FirestoreCredentials)
  : Run bool :=
  let fb := firebase w in
  try_catch
    (app ← Firestore.initializeApp fb (firebaseConfig credentialsToTest)
             ("test-app-" +:+ pretty (now w 0));
     db ← Firestore.getFirestore fb app;
     coll ← Firestore.collection fb db
              (JSON.JString (collectionName credentialsToTest));
     testDoc ← Firestore.addDoc fb coll (test_document w);
     Firestore.deleteDoc fb testDoc;;
     mret true)
    (λ error,
       emit (ConsoleError "Connection test failed:" error);; throw error).

Definition requiredFields : list string :=
  ["projectId"; "apiKey"; "authDomain"; "collectionName"].

(** [!credentials[field]] *)
Definition is_missing (c : FirestoreCredentials) (field : string) : bool :=
  match index c field with
  | Some v => negb (JS.truthy v)
  | None => true
  end.

Definition missingFields (c : FirestoreCredentials) : list string :=
  List.filter (is_missing c) requiredFields.

(** One of the four required fields is empty. *)
Definition any_required_empty (c : FirestoreCredentials) : Prop :=
  projectId c = EmptyString ∨ apiKey c = EmptyString
  ∨ authDomain c = EmptyString ∨ collectionName c = EmptyString.

Definition missing_toast (missing : list string) : Toast :=
  {| title := "Campos obrigatórios";
     description := "Por favor, preencha: " +:+ JS.join ", " missing;
     variant := destructive |}.

Definition saved_toast : Toast :=
  {| title := "Conexão bem-sucedida";
     description :=
       "Credenciais salvas e conexão com Firestore testada com sucesso!";
     variant := default_variant |}.

Definition failed_toast : Toast :=
  {| title := "Erro de conexão";
     description :=
       "Não foi possível conectar ao Firestore. Verifique suas credenciais.";
     variant := destructive |}.

Definition handleSave (w : World) (s : State) : Run unit :=
  let missing := missingFields (credentials s) in
  if (0 <? length missing)%nat then emit (Toasted (missing_toast missing))
  else
    emit (SetIsLoading true);;
    try_finally
      (try_catch
         (testConnection w (credentials s);;
          emit (StorageSetItem localStorage_key
                  (JSON.stringify (credentials s)));;
          emit (OnCredentialsSave (credentials s));;
          emit (Toasted saved_toast))
         (λ error, emit (Toasted failed_toast)))
      (emit (SetIsLoading false)).

(** The save control is disabled while a save is pending. *)
Definition save_disabled (s : State) : bool := isLoading s.

(** The indicator of the panel follows the property its owner passes. *)
Definition shows_connected (isConnected : bool) : bool := isConnected.

End FirestoreConfig.

(** ** Index: the page and its pending record *)

Module Index.
Import SDK.

Record State := {
  activeTab : string;
  isConnected : bool;
  isSubmitting : bool;
  record : MedicalRecord
}.

Definition empty_record : MedicalRecord :=
  {| ecg := EmptyString; laudo := EmptyString; descricao := EmptyString |}.

Definition initial : State :=
  {| activeTab := "data"; isConnected := false; isSubmitting := false;
     record := empty_record |}.

(** The fields of the record a control writes with
    [setRecord(prev => ({...prev, field: value}))]. *)
Inductive RecordField := Ecg | Laudo | Descricao.

Definition with_record_field (r : MedicalRecord) (f : RecordField)
  (v : string) : MedicalRecord :=
  match f with
  | Ecg => {| ecg := v; laudo := laudo r; descricao := descricao r |}
  | Laudo => {| ecg := ecg r; laudo := v; descricao := descricao r |}
  | Descricao => {| ecg := ecg r; laudo := laudo r; descricao := v |}
  end.

Definition apply_effect (s : State) (e : Effect) : State :=
  match e with
  | SetActiveTab t =>
      {| activeTab := t; isConnected := isConnected s;
         isSubmitting := isSubmitting s; record := record s |}
  | SetIsConnected b =>
      {| activeTab := activeTab s; isConnected := b;
         isSubmitting := isSubmitting s; record := record s |}
  | SetIsSubmitting b =>
      {| activeTab := activeTab s; isConnected := isConnected s;
         isSubmitting := b; record := record s |}
  | SetRecord r =>
      {| activeTab := activeTab s; isConnected := isConnected s;
         isSubmitting := isSubmitting s; record := r |}
  | _ => s
  end.

Definition apply_effects (t : list Effect) (s : State) : State :=
  foldl apply_effect s t.

(** The effect that runs on mount. *)
Definition useEffect_mount (storage : gmap string string) : Run unit :=
  match getItem storage localStorage_key with
  | Some savedCredentials =>
      if JS.truthy savedCredentials then emit (SetIsConnected true)
      else mret tt
  | None => mret tt
  end.

Definition mount (storage : gmap string string) : State :=
  apply_effects (trace (useEffect_mount storage)) initial.

Definition handleCredentialsSave (c : FirestoreCredentials) : Run unit :=
  emit (SetIsConnected true);;
  emit (ConsoleLog "Firebase credentials saved:").

Definition connection_required : Toast :=
  {| title := "Conexão necessária";
     description :=
       "Configure as credenciais do Firestore na aba Configurações";
     variant := destructive |}.

Definition fields_required : Toast :=
  {| title := "Campos obrigatórios";
     description := "Por favor, preencha todos os campos antes de enviar";
     variant := destructive |}.

Definition sent_toast (docId : string) : Toast :=
  {| title := "Dados enviados com sucesso!";
     description := "Registro médico salvo no Firestore com ID: " +:+ docId;
     variant := default_variant |}.

Definition send_failed : Toast :=
  {| title := "Erro ao enviar";
     description :=
       "Ocorreu um erro ao salvar no Firestore. Verifique sua conexão e credenciais.";
     variant := destructive |}.

(** [credentials.key] on the parsed value. *)
Definition property (v : JSON.Value) (key : string) : Run JSON.Value :=
  match JSON.get v key with
  | Some x => mret x
  | None => throw "TypeError"
  end.

Definition record_document (w : World) (r : MedicalRecord) : Document :=
  [ ("ecg", VString (ecg r));
    ("laudo", VString (laudo r));
    ("descricao", VString (descricao r));
    ("timestamp", VIsoString (now w 1));
    ("created_at", VDate (now w 2)) ].

(** The body of the [try] of [handleSubmit] up to the awaited write: the
    reference of the written document, or what was thrown on the way. *)
Definition write_record (w : World) (storage : gmap string string)
  (r : MedicalRecord) : Run DocRef :=
  let fb := firebase w in
  savedCredentials ←
    match getItem storage localStorage_key with
    | Some saved =>
        if JS.truthy saved then mret saved
        else throw "Credenciais não encontradas"
    | None => throw "Credenciais não encontradas"
    end;
  credentials ←
    match JSON.parse savedCredentials with
    | Some v => mret v
    | None => throw "SyntaxError"
    end;
  k ← property credentials "apiKey";
  a ← property credentials "authDomain";
  p ← property credentials "projectId";
  b ← property credentials "storageBucket";
  m ← property credentials "messagingSenderId";
  i ← property credentials "appId";
  let firebaseConfig :=
    {| opt_apiKey := k; opt_authDomain := a; opt_projectId := p;
       opt_storageBucket := b; opt_messagingSenderId := m; opt_appId := i |} in
  app ← Firestore.initializeApp fb firebaseConfig
          ("medical-app-" +:+ pretty (now w 0));
  db ← Firestore.getFirestore fb app;
  name ← property credentials "collectionName";
  coll ← Firestore.collection fb db name;
  Firestore.addDoc fb coll (record_document w r).

Definition handleSubmit (w : World) (storage : gmap string string)
  (s : State) : Run unit :=
  if negb (isConnected s) then
    emit (Toasted connection_required);;
    emit (SetActiveTab "config")
  else if negb (JS.truthy (ecg (record s)))
          || negb (JS.truthy (laudo (record s)))
          || negb (JS.truthy (descricao (record s))) then
    emit (Toasted fields_required)
  else
    emit (SetIsSubmitting true);;
    try_finally
      (try_catch
         (docRef ← write_record w storage (record s);
          emit (ConsoleLog "Document written with ID: ");;
          emit (Toasted (sent_toast (id docRef)));;
          emit (SetRecord empty_record))
         (λ error,
            emit (ConsoleError "Error submitting to Firestore:" error);;
            emit (Toasted send_failed)))
      (emit (SetIsSubmitting false)).

(** What can happen on the page: a tab is chosen, a control writes a field
    of the record, the panel reports saved credentials, the submit control
    is clicked (with the storage and the world of that moment). *)
Inductive Event :=
| TabChange (tab : string)
| FieldChange (f : RecordField) (v : string)
| CredentialsSave (c : FirestoreCredentials)
| SubmitClick (w : World) (storage : gmap string string).

Definition handle (s : State) (e : Event) : Run unit :=
  match e with
  | TabChange tab => emit (SetActiveTab tab)
  | FieldChange f v => emit (SetRecord (with_record_field (record s) f v))
  | CredentialsSave c => handleCredentialsSave c
  | SubmitClick w storage =>
      if isSubmitting s then mret tt else handleSubmit w storage s
  end.

Definition step (s : State) (e : Event) : State :=
  apply_effects (trace (handle s e)) s.

Definition run (s : State) (es : list Event) : State := foldl step s es.

Definition is_save (e : Event) : bool :=
  match e with
  | CredentialsSave _ => true
  | _ => false
  end.

End Index.

(** ** Sample worlds and inputs *)

Module Sample.
Import SDK FileAPI.

(** A store that takes every call, and one whose writes are refused. *)
Definition online : Firebase :=
  {| initializeApp_error := λ _ _, None;
     getFirestore_error := λ _, None;
     collection_error := λ _ _, None;
     addDoc_outcome := λ _ _, Resolved "doc-1";
     deleteDoc_outcome := λ _, Resolved tt |}.

Definition offline : Firebase :=
  {| initializeApp_error := λ _ _, None;
     getFirestore_error := λ _, None;
     collection_error := λ _ _, None;
     addDoc_outcome := λ _ _, Rejected "unavailable";
     deleteDoc_outcome := λ _, Rejected "unavailable" |}.

Definition clock (k : nat) : Z := (1700000000000 + Z.of_nat k)%Z.

Definition world_online : World := {| firebase := online; now := clock |}.

Definition world_offline : World := {| firebase := offline; now := clock |}.

Definition profile : FirestoreCredentials :=
  {| projectId := "ecg-demo";
     apiKey := "AIzaSyC-demo";
     authDomain := "ecg-demo.firebaseapp.com";
     storageBucket := EmptyString;
     messagingSenderId := EmptyString;
     appId := EmptyString;
     collectionName := "medical_records" |}.

Definition storage_with_profile : gmap string string :=
  setItem localStorage_key (JSON.stringify profile) ∅.

Definition png : File :=
  {| name := "ecg.png"; type := "image/png";
     content := [x89; "P"%byte; "N"%byte; "G"%byte] |}.

Definition pdf : File :=
  {| name := "laudo.pdf"; type := "application/pdf";
     content := ["%"%byte; "P"%byte; "D"%byte; "F"%byte] |}.

Definition full_record : MedicalRecord :=
  {| ecg := "data:image/png;base64,XX";
     laudo := "data:image/png;base64,YY";
     descricao := "ok" |}.

(** The page with a profile active and the three fields filled in. *)
Definition ready_page : Index.State :=
  {| Index.activeTab := "data"; Index.isConnected := true;
     Index.isSubmitting := false; Index.record := full_record |}.

End Sample.

(** ** The handlers of the page and of the panel around their awaits

    [handleSubmit] and [handleSave] are asynchronous: each runs up to an
    awaited call on the remote store and goes on when that call has
    settled, and other events of the page are handled in between.  As for
    the widget, each handler is cut at its awaits, and the component is put
    together with the calls it has in flight. *)

Definition is_drop (e : ImageUpload.Event) : bool :=
  match e with
  | ImageUpload.Drop _ => true
  | _ => false
  end.

Definition is_widget_remount (e : ImageUpload.Event) : bool :=
  match e with
  | ImageUpload.Remount => true
  | _ => false
  end.

(** The mounted widget has at most one read of its own in flight, and its
    busy flag is up exactly when it has one. *)
Definition one_read (w : ImageUpload.Widget) : Prop :=
  (ImageUpload.reading w = []
   ∧ ImageUpload.isLoading (ImageUpload.state w) = false)
  ∨ (∃ file, ImageUpload.reading w = [file]
             ∧ ImageUpload.isLoading (ImageUpload.state w) = true).

Module SubmitFlow.
Import SDK Index.

(** The body of the [try] of [handleSubmit] up to the collection the
    document goes to. *)
Definition open_collection (w : World) (storage : gmap string string)
  : Run CollectionRef :=
  let fb := firebase w in
  savedCredentials ←
    match getItem storage localStorage_key with
    | Some saved =>
        if JS.truthy saved then mret saved
        else throw "Credenciais não encontradas"
    | None => throw "Credenciais não encontradas"
    end;
  credentials ←
    match JSON.parse savedCredentials with
    | Some v => mret v
    | None => throw "SyntaxError"
    end;
  k ← property credentials "apiKey";
  a ← property credentials "authDomain";
  p ← property credentials "projectId";
  b ← property credentials "storageBucket";
  m ← property credentials "messagingSenderId";
  i ← property credentials "appId";
  let firebaseConfig :=
    {| opt_apiKey := k; opt_authDomain := a; opt_projectId := p;
       opt_storageBucket := b; opt_messagingSenderId := m; opt_appId := i |} in
  app ← Firestore.initializeApp fb firebaseConfig
          ("medical-app-" +:+ pretty (now w 0));
  db ← Firestore.getFirestore fb app;
  name ← property credentials "collectionName";
  Firestore.collection fb db name.

(** [handleSubmit] up to [await addDoc(...)]: the collection of the write it
    has begun, or [None] when it is over already (a guard answered, or
    something was thrown and caught before the write). *)
Definition handleSubmit_begin (w : World) (storage : gmap string string)
  (s : State) : Run (option CollectionRef) :=
  if negb (isConnected s) then
    emit (Toasted connection_required);;
    emit (SetActiveTab "config");;
    mret None
  else if negb (JS.truthy (ecg (record s)))
          || negb (JS.truthy (laudo (record s)))
          || negb (JS.truthy (descricao (record s))) then
    emit (Toasted fields_required);; mret None
  else
    emit (SetIsSubmitting true);;
    try_catch
      (coll ← open_collection w storage;
       emit (AddDoc coll (record_document w (record s)));;
       mret (Some coll))
      (λ error,
         emit (ConsoleError "Error submitting to Firestore:" error);;
         emit (Toasted send_failed);;
         emit (SetIsSubmitting false);;
         mret None).

(** The reference [addDoc] resolves with. *)
Definition written (coll : CollectionRef) (settled : Settled string)
  : Settled DocRef :=
  match settled with
  | Resolved i => Resolved {| parent := coll; id := i |}
  | Rejected e => Rejected e
  end.

(** [handleSubmit] from the moment the write has settled. *)
Definition handleSubmit_resume (coll : CollectionRef)
  (settled : Settled string) : Run unit :=
  try_finally
    (try_catch
       (docRef ← await (written coll settled);
        emit (ConsoleLog "Document written with ID: ");;
        emit (Toasted (sent_toast (id docRef)));;
        emit (SetRecord empty_record))
       (λ error,
          emit (ConsoleError "Error submitting to Firestore:" error);;
          emit (Toasted send_failed)))
    (emit (SetIsSubmitting false)).

(** The page with the writes it has in flight. *)
Record Page := { page : State; writes : list CollectionRef }.

Definition mounted (storage : gmap string string) : Page :=
  {| page := mount storage; writes := [] |}.

Inductive Event :=
| Tab (tab : string)
| Field (f : RecordField) (v : string)
| Saved (c : FirestoreCredentials)
| Click (w : World) (storage : gmap string string)
| Settle (k : nat) (settled : Settled string).

Definition on_page (t : list Effect) (p : Page) : Page :=
  {| page := apply_effects t (page p); writes := writes p |}.

Definition launch (m : Run (option CollectionRef)) (p : Page) : Page :=
  match outcome m with
  | Resolved (Some coll) =>
      {| page := apply_effects (trace m) (page p);
         writes := writes p ++ [coll] |}
  | _ => on_page (trace m) p
  end.

(** One event on the page; [None] when it cannot be raised: a click on the
    submit control while it is disabled, a write that is not in flight. *)
Definition dispatch (p : Page) (e : Event) : option Page :=
  match e with
  | Tab tab => Some (on_page [SetActiveTab tab] p)
  | Field f v =>
      Some (on_page [SetRecord (with_record_field (record (page p)) f v)] p)
  | Saved c => Some (on_page (trace (handleCredentialsSave c)) p)
  | Click w storage =>
      if isSubmitting (page p) then None
      else Some (launch (handleSubmit_begin w storage (page p)) p)
  | Settle k settled =>
      coll ← writes p !! k;
      Some {| page :=
                apply_effects (trace (handleSubmit_resume coll settled))
                  (page p);
              writes := delete k (writes p) |}
  end.

Fixpoint dispatch_all (p : Page) (es : list Event) : option Page :=
  match es with
  | [] => Some p
  | e :: rest => p' ← dispatch p e; dispatch_all p' rest
  end.

Definition is_field (e : Event) : bool :=
  match e with
  | Field _ _ => true
  | _ => false
  end.

(** At most one write is in flight, and the submit control is disabled
    exactly when one is. *)
Definition one_write (p : Page) : Prop :=
  (writes p = [] ∧ isSubmitting (page p) = false)
  ∨ (∃ coll, writes p = [coll] ∧ isSubmitting (page p) = true).

End SubmitFlow.

Module SaveFlow.
Import SDK FirestoreConfig.

(** A save in flight: the credentials [handleSave] was called with, and the
    call it awaits. *)
Inductive Pending :=
| AwaitingAdd (c : FirestoreCredentials) (coll : CollectionRef)
| AwaitingDelete (c : FirestoreCredentials) (testDoc : DocRef).

(** The [try] of [testConnection] up to the collection of the test
    document. *)
Definition open_collection (w : World) (c : FirestoreCredentials)
  : Run CollectionRef :=
  let fb := firebase w in
  app ← Firestore.initializeApp fb (firebaseConfig c)
          ("test-app-" +:+ pretty (now w 0));
  db ← Firestore.getFirestore fb app;
  Firestore.collection fb db (JSON.JString (collectionName c)).

(** What follows an exception in the [try] of [testConnection]: its own
    [catch] logs and throws again, the [catch] of [handleSave] shows the
    notice, and the [finally] of [handleSave] lowers the flag. *)
Definition test_failed (error : string) : Run unit :=
  emit (ConsoleError "Connection test failed:" error);;
  emit (Toasted failed_toast);;
  emit (SetIsLoading false).

(** [handleSave] up to [await addDoc(...)] in [testConnection]. *)
Definition handleSave_begin (w : World) (s : State) : Run (option Pending) :=
  let missing := missingFields (credentials s) in
  if (0 <? length missing)%nat then
    emit (Toasted (missing_toast missing));; mret None
  else
    emit (SetIsLoading true);;
    try_catch
      (coll ← open_collection w (credentials s);
       emit (AddDoc coll (test_document w));;
       mret (Some (AwaitingAdd (credentials s) coll)))
      (λ error, test_failed error;; mret None).

(** From the settled [addDoc] up to [await deleteDoc(testDoc)]. *)
Definition handleSave_added (c : FirestoreCredentials) (coll : CollectionRef)
  (settled : Settled string) : Run (option Pending) :=
  match settled with
  | Resolved i =>
      let testDoc := {| parent := coll; id := i |} in
      emit (DeleteDoc testDoc);; mret (Some (AwaitingDelete c testDoc))
  | Rejected error => test_failed error;; mret None
  end.

(** From the settled [deleteDoc] to the end of [handleSave]. *)
Definition handleSave_deleted (c : FirestoreCredentials)
  (settled : Settled unit) : Run unit :=
  try_finally
    (try_catch
       (try_catch (await settled;; mret true)
          (λ error,
             emit (ConsoleError "Connection test failed:" error);;
             throw error);;
        emit (StorageSetItem localStorage_key (JSON.stringify c));;
        emit (OnCredentialsSave c);;
        emit (Toasted saved_toast))
       (λ error, emit (Toasted failed_toast)))
    (emit (SetIsLoading false)).

(** The panel with local storage, the saves it has in flight, and what it
    has reported to its owner.

    The panel sits in the content of the configuration tab, which is
    rendered only while that tab is the active one: choosing the other tab
    unmounts the panel, and choosing its tab again mounts a new instance,
    whose state is that of [useState] followed by the effect that runs on
    mount.  Nothing cancels a save at the unmount: [saves] are the saves
    the mounted instance began, [orphans] those an earlier instance began
    and which are still in flight. *)
Record Panel := {
  panel : State;
  storage : gmap string string;
  saves : list Pending;
  orphans : list Pending;
  reported : list FirestoreCredentials
}.

Definition opened (s : State) (st : gmap string string) : Panel :=
  {| panel := s; storage := st; saves := []; orphans := [];
     reported := [] |}.

(** [Added k] and [Deleted k] are the call the [k]-th save of the mounted
    instance awaits settling.  [Remount shown] is the other tab chosen and
    the tab of the panel chosen again; the storage of that moment decides
    what the new instance loads, and [shown] stands for it only when the
    stored value is JSON that the typed state of this embedding cannot hold
    (an object whose members come in another order, say).  A call that
    settles while the other tab is shown is an [Added] or a [Deleted]
    before the [Remount], and what it does to the state of the panel is
    gone with the remount, as on the page.  [OrphanAdded k] and
    [OrphanDeleted k] are the call the [k]-th save of an earlier instance
    awaits settling after the tab of the panel is back. *)
Inductive Event :=
| Input (field value : string)
| Click (w : World)
| Added (k : nat) (settled : Settled string)
| Deleted (k : nat) (settled : Settled unit)
| Remount (shown : FirestoreCredentials)
| OrphanAdded (k : nat) (settled : Settled string)
| OrphanDeleted (k : nat) (settled : Settled unit).

(** The effects of a part of a handler on the panel, on local storage and
    on the owner; [rest] are the saves of the mounted instance in flight
    afterwards. *)
Definition after (t : list Effect) (rest : list Pending) (p : Panel)
  : Panel :=
  {| panel := apply_effects t (panel p);
     storage := storage_after t (storage p);
     saves := rest;
     orphans := orphans p;
     reported := reported p ++ saves_reported t |}.

Definition continue (m : Run (option Pending)) (others : list Pending)
  (p : Panel) : Panel :=
  match outcome m with
  | Resolved (Some next) => after (trace m) (others ++ [next]) p
  | _ => after (trace m) others p
  end.

(** The same for a part of a handler of an instance that is no longer
    mounted: its setters do nothing; local storage and the callback of the
    owner are reached as before.  [rest] are the saves of earlier instances
    in flight afterwards. *)
Definition after_unmounted (t : list Effect) (rest : list Pending)
  (p : Panel) : Panel :=
  {| panel := panel p;
     storage := storage_after t (storage p);
     saves := saves p;
     orphans := rest;
     reported := reported p ++ saves_reported t |}.

Definition continue_unmounted (m : Run (option Pending))
  (others : list Pending) (p : Panel) : Panel :=
  match outcome m with
  | Resolved (Some next) => after_unmounted (trace m) (others ++ [next]) p
  | _ => after_unmounted (trace m) others p
  end.

(** The state of a new instance of the panel over [storage]. *)
Definition mounted_over (st : gmap string string)
  (shown : FirestoreCredentials) : State :=
  match mount st with
  | Some s => s
  | None => {| isLoading := false; credentials := shown |}
  end.

(** One event on the panel; [None] when it cannot be raised: a click on the
    save control while it is disabled, a call that is not awaited. *)
Definition dispatch (p : Panel) (e : Event) : option Panel :=
  match e with
  | Input field value =>
      Some (after (trace (handleInputChange (panel p) field value))
              (saves p) p)
  | Click w =>
      if save_disabled (panel p) then None
      else Some (continue (handleSave_begin w (panel p)) (saves p) p)
  | Added k settled =>
      match saves p !! k with
      | Some (AwaitingAdd c coll) =>
          Some (continue (handleSave_added c coll settled)
                  (delete k (saves p)) p)
      | _ => None
      end
  | Deleted k settled =>
      match saves p !! k with
      | Some (AwaitingDelete c testDoc) =>
          Some (after (trace (handleSave_deleted c settled))
                  (delete k (saves p)) p)
      | _ => None
      end
  | Remount shown =>
      Some {| panel := mounted_over (storage p) shown;
              storage := storage p;
              saves := [];
              orphans := orphans p ++ saves p;
              reported := reported p |}
  | OrphanAdded k settled =>
      match orphans p !! k with
      | Some (AwaitingAdd c coll) =>
          Some (continue_unmounted (handleSave_added c coll settled)
                  (delete k (orphans p)) p)
      | _ => None
      end
  | OrphanDeleted k settled =>
      match orphans p !! k with
      | Some (AwaitingDelete c testDoc) =>
          Some (after_unmounted (trace (handleSave_deleted c settled))
                  (delete k (orphans p)) p)
      | _ => None
      end
  end.

Fixpoint dispatch_all (p : Panel) (es : list Event) : option Panel :=
  match es with
  | [] => Some p
  | e :: rest => p' ← dispatch p e; dispatch_all p' rest
  end.


(** The credentials a save in flight was begun with are the ones it tests. *)
Definition coherent (x : Pending) : Prop :=
  match x with
  | AwaitingAdd c coll =>
      options (db coll) = firebaseConfig c
      ∧ path coll = JSON.JString (collectionName c)
  | AwaitingDelete c testDoc =>
      options (db (parent testDoc)) = firebaseConfig c
      ∧ path (parent testDoc) = JSON.JString (collectionName c)
  end.

Definition is_remount (e : Event) : bool :=
  match e with
  | Remount _ => true
  | _ => false
  end.

(** The mounted panel has at most one save of its own in flight, it tests
    the credentials it was begun with, and the save control is disabled
    exactly when there is one. *)
Definition one_save (p : Panel) : Prop :=
  (saves p = [] ∧ isLoading (panel p) = false)
  ∨ (∃ x, saves p = [x] ∧ coherent x ∧ isLoading (panel p) = true).

(** A [deleteDoc] of the test document that resolved. *)
Definition is_deleted (e : Event) : bool :=
  match e with
  | Deleted _ (Resolved _) => true
  | OrphanDeleted _ (Resolved _) => true
  | _ => false
  end.

End SaveFlow.

(** * Properties *)

(** ** Base64 and data URLs *)

Section Base64_facts.
Import Base64.
Local Open Scope N_scope.

Lemma below_64 (f : N → bool) :
  forallb f (N.of_nat <$> seq 0 64) = true → ∀ i, i < 64 → f i = true.
Proof.
  intros Hf i Hi. rewrite forallb_forall in Hf. apply Hf.
  apply list_elem_of_In, list_elem_of_fmap. exists (N.to_nat i).
  split; [ now rewrite N2Nat.id | apply elem_of_seq; lia ].
Qed.

Lemma value_digit i : i < 64 → value (digit i) = Some i.
Proof.
  intros Hi.
  pose proof (below_64
    (λ j, match value (digit j) with Some k => N.eqb k j | None => false end)
    eq_refl i Hi) as H.
  simpl in H. destruct (value (digit i)) as [k|]; [|discriminate].
  apply N.eqb_eq in H. now subst.
Qed.

Lemma digit_not_pad i : i < 64 → is_pad (digit i) = false.
Proof.
  intros Hi. apply negb_true_iff.
  exact (below_64 (λ j, negb (is_pad (digit j))) eq_refl i Hi).
Qed.

Lemma digit_not_comma i : i < 64 → Ascii.eqb (digit i) "," = false.
Proof.
  intros Hi. apply negb_true_iff.
  exact (below_64 (λ j, negb (Ascii.eqb (digit j) ",")) eq_refl i Hi).
Qed.

Lemma of_N_octet b : Byte.of_N (octet b) = Some b.
Proof. apply Byte.of_to_N. Qed.

Lemma octet_bound b : octet b < 256.
Proof. pose proof (Byte.to_N_bounded b). unfold octet. lia. Qed.

Lemma mod_64_bound n : n mod 64 < 64.
Proof. apply N.mod_lt. lia. Qed.

(** The four digits of three octets hold the same 24 bits. *)
Lemma triple_split a b c :
  a < 256 → b < 256 → c < 256 →
  let n := a * 65536 + b * 256 + c in
  n / 262144 < 64 ∧
  (n / 262144) * 262144 + ((n / 4096) mod 64) * 4096
    + ((n / 64) mod 64) * 64 + n mod 64 = n ∧
  n / 65536 = a ∧ (n / 256) mod 256 = b ∧ n mod 256 = c.
Proof.
  intros. subst n. repeat split; zify; Z.to_euclidean_division_equations; lia.
Qed.

Lemma single_split a :
  a < 256 →
  let n := a * 16 in
  n / 64 < 64 ∧ (n / 64 * 64 + n mod 64) / 16 = a.
Proof.
  intros. subst n. repeat split; zify; Z.to_euclidean_division_equations; lia.
Qed.

Lemma pair_split a b :
  a < 256 → b < 256 →
  let n := (a * 256 + b) * 4 in
  n / 4096 < 64 ∧
  (n / 4096 * 4096 + (n / 64) mod 64 * 64 + n mod 64) / 4 / 256 = a ∧
  ((n / 4096 * 4096 + (n / 64) mod 64 * 64 + n mod 64) / 4) mod 256 = b.
Proof.
  intros. subst n. repeat split; zify; Z.to_euclidean_division_equations; lia.
Qed.

(** Induction on a list three elements at a time. *)
Lemma list_ind3 {A} (P : list A → Prop) :
  P [] → (∀ a, P [a]) → (∀ a b, P [a; b]) →
  (∀ a b c l, P l → P (a :: b :: c :: l)) → ∀ l, P l.
Proof.
  intros H0 H1 H2 H3. fix IH 1.
  intros [|a [|b [|c l]]]; [exact H0 | exact (H1 a) | exact (H2 a b) |].
  apply H3, IH.
Qed.

Ltac digits :=
  rewrite ?digit_not_pad, ?value_digit, ?digit_not_comma
    by (apply mod_64_bound || assumption); simpl.

Theorem decode_encode bs : decode (encode bs) = Some bs.
Proof.
  induction bs as [|a|a b|a b c l IH] using list_ind3.
  - reflexivity.
  - destruct (single_split _ (octet_bound a)) as (H1 & H2).
    cbn [encode decode]. change (is_pad pad) with true. cbn match.
    digits. rewrite H2, of_N_octet. reflexivity.
  - destruct (pair_split _ _ (octet_bound a) (octet_bound b))
      as (H1 & H2 & H3).
    cbn [encode decode]. change (is_pad pad) with true.
    digits. rewrite H2, H3, !of_N_octet. reflexivity.
  - destruct (triple_split _ _ _ (octet_bound a) (octet_bound b)
                (octet_bound c)) as (H1 & H2 & H3 & H4 & H5).
    cbn [encode decode]. digits.
    rewrite H2, H3, H4, H5, !of_N_octet. simpl. rewrite IH. reflexivity.
Qed.

Lemma encode_no_comma bs : DataURL.occurs "," (encode bs) = false.
Proof.
  induction bs as [|a|a b|a b c l IH] using list_ind3.
  - reflexivity.
  - destruct (single_split _ (octet_bound a)) as (H1 & _).
    cbn [encode DataURL.occurs]. digits. reflexivity.
  - destruct (pair_split _ _ (octet_bound a) (octet_bound b)) as (H1 & _).
    cbn [encode DataURL.occurs]. digits. reflexivity.
  - destruct (triple_split _ _ _ (octet_bound a) (octet_bound b)
                (octet_bound c)) as (H1 & _).
    cbn [encode DataURL.occurs]. digits. exact IH.
Qed.

End Base64_facts.

Section DataURL_facts.
Import DataURL.

Lemma append_cons x (a b : string) : String x a +:+ b = String x (a +:+ b).
Proof. reflexivity. Qed.

Lemma append_assoc (a b c : string) : (a +:+ b) +:+ c = a +:+ (b +:+ c).
Proof.
  induction a as [|x a IH]; [reflexivity|].
  now rewrite !append_cons, IH.
Qed.

Lemma occurs_append c (a b : string) :
  occurs c (a +:+ b) = occurs c a || occurs c b.
Proof.
  induction a as [|x a IH]; [reflexivity|].
  rewrite append_cons. simpl. rewrite IH. apply orb_assoc.
Qed.

Lemma split_last_absent c s : occurs c s = false → split_last c s = None.
Proof.
  induction s as [|d s IH]; simpl; [reflexivity|].
  intros H. apply orb_false_iff in H as [Hd Hs].
  now rewrite (IH Hs), Hd.
Qed.

Lemma split_last_append c h p :
  occurs c p = false → split_last c (h +:+ String c p) = Some (h, p).
Proof.
  intros Hp. induction h as [|d h IH].
  - change (EmptyString +:+ String c p) with (String c p). simpl.
    now rewrite (split_last_absent _ _ Hp), Ascii.eqb_refl.
  - rewrite append_cons. simpl. now rewrite IH.
Qed.

Lemma split_first_append c h p :
  occurs c h = false → split_first c (h +:+ String c p) = Some (h, p).
Proof.
  induction h as [|d h IH]; intros Hh.
  - change (EmptyString +:+ String c p) with (String c p). simpl.
    now rewrite Ascii.eqb_refl.
  - rewrite append_cons. simpl in *.
    apply orb_false_iff in Hh as [Hd Hs]. now rewrite Hd, (IH Hs).
Qed.

Lemma ends_with_append a b : ends_with (a +:+ b) b = true.
Proof.
  induction a as [|x a IH].
  - change (EmptyString +:+ b) with b.
    destruct b; simpl; [reflexivity|].
    now rewrite Ascii.eqb_refl, String.eqb_refl.
  - rewrite append_cons. simpl. rewrite IH. apply orb_true_r.
Qed.

(** A data URL is its header, a comma, and its payload. *)
Lemma make_header mediaType bs :
  make mediaType bs
  = ("data:" +:+ mediaType +:+ ";base64") +:+ String "," (Base64.encode bs).
Proof. unfold make. now rewrite !append_assoc. Qed.

Lemma header_accepted mediaType :
  JS.startsWith ("data:" +:+ mediaType +:+ ";base64") "data:"
  && ends_with ("data:" +:+ mediaType +:+ ";base64") ";base64" = true.
Proof.
  apply andb_true_iff. split; [reflexivity|].
  rewrite <- append_assoc. apply ends_with_append.
Qed.

Lemma decode_make mediaType bs : decode (make mediaType bs) = Some bs.
Proof.
  unfold decode. rewrite make_header.
  rewrite split_last_append by apply encode_no_comma.
  unfold decode_parts. cbn [mbind option_bind].
  rewrite header_accepted. apply decode_encode.
Qed.

(** When the media type has no comma, reading up to the first comma finds
    the same payload. *)
Lemma decode_rfc2397_make mediaType bs :
  occurs "," mediaType = false → decode_rfc2397 (make mediaType bs) = Some bs.
Proof.
  intros Hm. unfold decode_rfc2397. rewrite make_header.
  rewrite split_first_append.
  - unfold decode_parts. cbn [mbind option_bind].
    rewrite header_accepted. apply decode_encode.
  - rewrite !occurs_append, Hm. reflexivity.
Qed.

End DataURL_facts.

(** ** JSON *)

Section JSON_facts.
Import JSON.



(** The escapes of a surrogate pair are one character, the four bytes of
    its code point; a high surrogate with no low one after it stays a group
    of its own. *)
Example parse_surrogate_pair :
  parse (String dquote ("\ud83d\ude00" +:+ String dquote EmptyString))
  = Some (JString "😀")
  ∧ parse (String dquote ("\ud83d\u0041" +:+ String dquote EmptyString))
    = Some (JString (utf8 55357 +:+ "A")).
Proof. split; reflexivity. Qed.












End JSON_facts.

(** ** The attachment encoder *)

Section Encoder.
Import FileAPI ImageUpload.

(** A file whose bytes can be read is always encoded. *)
Lemma convertToBase64_readable file :
  convertToBase64 true file
  = Resolved (DataURL.make (type file) (content file)).
Proof. reflexivity. Qed.

Lemma convertToBase64_unreadable file :
  convertToBase64 false file = Rejected "NotReadableError".
Proof. reflexivity. Qed.

(** C3. For every file, whatever text [convertToBase64] resolves with (the
    data URL carrying the media type and the base64 payload) decodes to the
    bytes of that file. *)
Theorem convertToBase64_round_trip (readable : bool) (file : File)
  (url : string) :
  convertToBase64 readable file = Resolved url →
  DataURL.decode url = Some (content file).
Proof.
  destruct readable.
  - rewrite convertToBase64_readable. intros [= <-]. apply decode_make.
  - rewrite convertToBase64_unreadable. discriminate.
Qed.

Lemma convertToBase64_round_trip_witness :
  convertToBase64 true Sample.png
    = Resolved "data:image/png;base64,iVBORw=="
  ∧ DataURL.decode "data:image/png;base64,iVBORw=="
    = Some (content Sample.png).
Proof.
  split; [reflexivity|].
  apply (convertToBase64_round_trip true Sample.png). reflexivity.
Defined.

End Encoder.

(** ** The attachment widget *)

Section Widget.
Import FileAPI ImageUpload.

(** The two parts of [handleFileUpload] make up the whole. *)
Lemma handleFileUpload_parts readable file :
  handleFileUpload readable file
  = (started ← handleFileUpload_begin file;
     match started with
     | Some f => handleFileUpload_resume (convertToBase64 readable f)
     | None => mret tt
     end).
Proof.
  unfold handleFileUpload, handleFileUpload_begin.
  destruct (JS.startsWith (type file) "image/"); [|reflexivity].
  cbn [negb]. unfold handleFileUpload_resume.
  cbn -[convertToBase64].
  destruct (convertToBase64 readable file); reflexivity.
Qed.

Lemma handleDrop_parts readable files :
  handleDrop readable files
  = (started ← handleDrop_begin files;
     match started with
     | Some f => handleFileUpload_resume (convertToBase64 readable f)
     | None => mret tt
     end).
Proof.
  unfold handleDrop, handleDrop_begin.
  destruct files as [|file rest]; [reflexivity|].
  rewrite handleFileUpload_parts. unfold handleFileUpload_begin.
  destruct (JS.startsWith (type file) "image/"); [|reflexivity].
  cbn -[handleFileUpload_resume convertToBase64].
  now destruct (handleFileUpload_resume (convertToBase64 readable file)).
Qed.

Lemma handleFileSelect_parts readable files :
  handleFileSelect readable files
  = (started ← handleFileSelect_begin files;
     match started with
     | Some f => handleFileUpload_resume (convertToBase64 readable f)
     | None => mret tt
     end).
Proof.
  unfold handleFileSelect, handleFileSelect_begin.
  destruct files as [[|file rest]|]; try reflexivity.
  apply handleFileUpload_parts.
Qed.

(** C9. A file whose declared media type does not start with [image/] is
    turned away with an alert, whichever way it came in: no change is
    notified, and the value the widget shows stays what it was. *)
Theorem non_image_rejected (readable : bool) (file : File)
  (rest : list File) (w : Widget) :
  JS.startsWith (type file) "image/" = false →
  let upload := trace (handleFileUpload readable file) in
  let dropped := trace (handleDrop readable (file :: rest)) in
  let selected := trace (handleFileSelect readable (Some (file :: rest))) in
  upload = [Alert images_only]
  ∧ alerts dropped = [images_only] ∧ alerts selected = [images_only]
  ∧ changes upload = [] ∧ changes dropped = [] ∧ changes selected = []
  ∧ value (apply_effects upload w) = value w
  ∧ value (apply_effects dropped w) = value w
  ∧ value (apply_effects selected w) = value w
  ∧ (∀ w', dispatch w (Drop (file :: rest)) = Some w' →
       value w' = value w ∧ reading w' = reading w)
  ∧ (∀ w', dispatch w (FileSelect (Some (file :: rest))) = Some w' → w' = w).
Proof.
  intros Hty.
  assert (Hu : handleFileUpload readable file = ([Alert images_only], Resolved tt)).
  { unfold handleFileUpload. now rewrite Hty. }
  assert (Hb : handleFileUpload_begin file = ([Alert images_only], Resolved None)).
  { unfold handleFileUpload_begin. now rewrite Hty. }
  cbn zeta. unfold handleDrop, handleFileSelect. rewrite Hu.
  do 9 (split; [reflexivity|]). split.
  - intros w' [= <-]. unfold handleDrop_begin. rewrite Hb. now destruct w.
  - intros w'. unfold dispatch.
    destruct (file_input (render w)) as [[]|]; try discriminate.
    intros [= <-]. unfold handleFileSelect_begin. rewrite Hb. now destruct w.
Qed.

Lemma non_image_rejected_witness :
  trace (handleFileUpload true Sample.pdf) = [Alert images_only]
  ∧ changes (trace (handleDrop true [Sample.pdf])) = [].
Proof.
  pose proof (non_image_rejected true Sample.pdf [] (mounted "old") eq_refl)
    as H.
  cbn zeta in H. split; [apply H | apply H].
Defined.

(** While busy, the file picker cannot begin a read: its input is either
    not rendered or disabled. *)
Lemma picker_disabled_while_busy (w : Widget) files :
  busy w = true → dispatch w (FileSelect files) = None.
Proof.
  unfold busy, dispatch, render; simpl. intros ->.
  now destruct (JS.truthy (value w)).
Qed.

(** C8, at the input where the code departs from it.  A drop on a busy
    widget is handled like any other: with one read in flight, dropping an
    image begins a second one. *)
Theorem drop_while_busy_begins_second_read (v : string) (f1 f2 : File)
  (rest : list File) :
  JS.startsWith (type f1) "image/" = true →
  JS.startsWith (type f2) "image/" = true →
  ∃ w1 w2,
    dispatch (mounted v) (Drop [f1]) = Some w1
    ∧ busy w1 = true ∧ reading w1 = [f1]
    ∧ dispatch w1 (Drop (f2 :: rest)) = Some w2
    ∧ busy w2 = true ∧ reading w2 = [f1; f2].
Proof.
  intros H1 H2.
  assert (Hb : ∀ f, JS.startsWith (type f) "image/" = true →
            handleFileUpload_begin f = ([SetIsLoading true], Resolved (Some f))).
  { intros f Hf. unfold handleFileUpload_begin. now rewrite Hf. }
  eexists _, _. unfold dispatch, handleDrop_begin.
  rewrite (Hb f1 H1), (Hb f2 H2). cbn. repeat split; reflexivity.
Qed.

Lemma drop_while_busy_witness :
  ∃ w1 w2,
    dispatch (mounted EmptyString) (Drop [Sample.png]) = Some w1
    ∧ busy w1 = true ∧ reading w1 = [Sample.png]
    ∧ dispatch w1 (Drop [Sample.png]) = Some w2
    ∧ busy w2 = true ∧ reading w2 = [Sample.png; Sample.png].
Proof.
  exact (drop_while_busy_begins_second_read EmptyString Sample.png Sample.png
           [] eq_refl eq_refl).
Defined.

End Widget.

(** ** Runs and their traces *)

Section Run_facts.
Context {A B : Type}.

Lemma trace_bind (m : Run A) (k : A → Run B) :
  trace (m ≫= k)
  = trace m ++ match outcome m with
               | Resolved a => trace (k a)
               | Rejected _ => []
               end.
Proof.
  destruct m as [t [a|e]]; cbn; [|now rewrite app_nil_r].
  now destruct (k a).
Qed.

Lemma outcome_bind (m : Run A) (k : A → Run B) :
  outcome (m ≫= k)
  = match outcome m with
    | Resolved a => outcome (k a)
    | Rejected e => Rejected e
    end.
Proof. destruct m as [t [a|e]]; cbn; [|reflexivity]. now destruct (k a). Qed.

Lemma trace_try_catch (body : Run A) (handler : string → Run A) :
  trace (try_catch body handler)
  = trace body ++ match outcome body with
                  | Resolved _ => []
                  | Rejected e => trace (handler e)
                  end.
Proof.
  destruct body as [t [a|e]]; cbn; [now rewrite app_nil_r|].
  now destruct (handler e).
Qed.

Lemma outcome_try_catch (body : Run A) (handler : string → Run A) :
  outcome (try_catch body handler)
  = match outcome body with
    | Resolved a => Resolved a
    | Rejected e => outcome (handler e)
    end.
Proof.
  destruct body as [t [a|e]]; cbn; [reflexivity|]. now destruct (handler e).
Qed.

Lemma trace_try_finally (body : Run A) (cleanup : Run unit) :
  trace (try_finally body cleanup) = trace body ++ trace cleanup.
Proof. destruct body as [t r], cleanup as [t' [u|e]]; reflexivity. Qed.

Lemma trace_await (p : Settled A) : trace (await p) = [].
Proof. now destruct p. Qed.

Lemma outcome_await (p : Settled A) : outcome (await p) = p.
Proof. now destruct p. Qed.

End Run_facts.

Lemma omap_none {X Y} (f : X → option Y) (P : X → Prop) (l : list X) :
  (∀ x, P x → f x = None) → Forall P l → omap f l = [].
Proof.
  intros Hf Hl. induction Hl as [|x l Hx _ IH]; [reflexivity|].
  cbn. now rewrite (Hf x Hx).
Qed.

Lemma quiet_effects t :
  Forall sdk_or_console t →
  stored t = [] ∧ saves_reported t = [] ∧ toasts t = [] ∧ changes t = [].
Proof.
  intros H. repeat split; eapply omap_none; eauto;
    intros []; simpl; tauto.
Qed.

(** The calls of the SDK leave nothing but their own mark. *)
Section SDK_facts.
Import SDK.
Variable fb : Firebase.

Lemma initializeApp_effects o n :
  Forall sdk_or_console (trace (Firestore.initializeApp fb o n)).
Proof.
  unfold Firestore.initializeApp.
  destruct (initializeApp_error fb o n); cbn; repeat constructor.
Qed.

Lemma getFirestore_effects app :
  trace (Firestore.getFirestore fb app) = [].
Proof.
  unfold Firestore.getFirestore. now destruct (getFirestore_error fb app).
Qed.

Lemma collection_effects d p : trace (Firestore.collection fb d p) = [].
Proof.
  unfold Firestore.collection. now destruct (collection_error fb d p).
Qed.

Lemma addDoc_effects coll doc :
  trace (Firestore.addDoc fb coll doc) = [AddDoc coll doc].
Proof.
  unfold Firestore.addDoc. now destruct (addDoc_outcome fb coll doc).
Qed.

Lemma deleteDoc_effects ref :
  trace (Firestore.deleteDoc fb ref) = [DeleteDoc ref].
Proof.
  unfold Firestore.deleteDoc. now destruct (deleteDoc_outcome fb ref).
Qed.

End SDK_facts.

(** Splits the trace of a run along its binds and shows each piece to be
    made of SDK calls and console lines. *)
Ltac quiet :=
  repeat first
    [ progress rewrite ?trace_bind, ?trace_try_catch, ?trace_try_finally,
        ?trace_await, ?getFirestore_effects, ?collection_effects,
        ?addDoc_effects, ?deleteDoc_effects
    | apply Forall_app; split
    | apply initializeApp_effects
    | match goal with
      | |- Forall _ (match ?x with _ => _ end) => destruct x
      | |- Forall _ (trace (match ?x with _ => _ end)) => destruct x
      | |- Forall _ (trace (if ?x then _ else _)) => destruct x
      end
    | solve [cbn; repeat constructor] ].

(** ** The credentials panel *)

Section Panel.
Import SDK FirestoreConfig.

Lemma is_missing_required c field :
  In field requiredFields →
  is_missing c field = true ↔ index c field = Some EmptyString.
Proof.
  intros Hin. unfold is_missing.
  assert (∃ v, index c field = Some v) as [v Hv].
  { simpl in Hin.
    destruct Hin as [<-|[<-|[<-|[<-|[]]]]]; cbn; eauto. }
  rewrite Hv. destruct v; simpl; split; congruence.
Qed.

(** The missing fields are the required ones that are empty. *)
Lemma missingFields_spec c field :
  In field (missingFields c)
  ↔ In field requiredFields ∧ index c field = Some EmptyString.
Proof.
  unfold missingFields. rewrite filter_In.
  split; intros [Hin H]; (split; [exact Hin|]);
    now apply (is_missing_required c field Hin).
Qed.

Lemma missingFields_nil c : missingFields c = [] ↔ ¬ any_required_empty c.
Proof.
  unfold any_required_empty.
  destruct c as [p k a sb ms ai cn]; simpl.
  destruct p, k, a, cn; cbn; split;
    try discriminate; try tauto; intros _; intuition discriminate.
Qed.

(** C6. Validation in [handleSave] is on four fields: the project, the key,
    the auth domain and the collection.  When one of them is empty the only
    thing [handleSave] does is one destructive notice whose text lists the
    empty ones among the four, in that order and separated by commas, and
    no other field: nothing is stored, nothing is reported to the owner, the
    remote store is not called.  When none of them is empty validation
    passes, whatever the other three fields hold. *)
Theorem save_validates_four_fields (w : World) (s : State) :
  let c := credentials s in
  let t := trace (handleSave w s) in
  let listed :=
         match projectId c, apiKey c, authDomain c, collectionName c with
         | EmptyString, EmptyString, EmptyString, EmptyString =>
             "projectId, apiKey, authDomain, collectionName"
         | EmptyString, EmptyString, EmptyString, String _ _ =>
             "projectId, apiKey, authDomain"
         | EmptyString, EmptyString, String _ _, EmptyString =>
             "projectId, apiKey, collectionName"
         | EmptyString, EmptyString, String _ _, String _ _ =>
             "projectId, apiKey"
         | EmptyString, String _ _, EmptyString, EmptyString =>
             "projectId, authDomain, collectionName"
         | EmptyString, String _ _, EmptyString, String _ _ =>
             "projectId, authDomain"
         | EmptyString, String _ _, String _ _, EmptyString =>
             "projectId, collectionName"
         | EmptyString, String _ _, String _ _, String _ _ =>
             "projectId"
         | String _ _, EmptyString, EmptyString, EmptyString =>
             "apiKey, authDomain, collectionName"
         | String _ _, EmptyString, EmptyString, String _ _ =>
             "apiKey, authDomain"
         | String _ _, EmptyString, String _ _, EmptyString =>
             "apiKey, collectionName"
         | String _ _, EmptyString, String _ _, String _ _ =>
             "apiKey"
         | String _ _, String _ _, EmptyString, EmptyString =>
             "authDomain, collectionName"
         | String _ _, String _ _, EmptyString, String _ _ =>
             "authDomain"
         | String _ _, String _ _, String _ _, EmptyString =>
             "collectionName"
         | String _ _, String _ _, String _ _, String _ _ =>
             EmptyString
         end in
  (∀ field, In field (missingFields c)
      ↔ In field ["projectId"; "apiKey"; "authDomain"; "collectionName"]
        ∧ index c field = Some EmptyString)
  ∧ (any_required_empty c →
       t = [Toasted {| title := "Campos obrigatórios";
                       description := "Por favor, preencha: " +:+ listed;
                       variant := destructive |}]
       ∧ t = [Toasted (missing_toast (missingFields c))]
       ∧ missingFields c ≠ []
       ∧ stored t = [] ∧ saves_reported t = [] ∧ remote_calls t = [])
  ∧ (¬ any_required_empty c →
       missingFields c = [] ∧ head t = Some (SetIsLoading true)).
Proof.
  cbn zeta. split; [apply missingFields_spec|]. split.
  - intros Hany.
    assert (Hne : missingFields (credentials s) ≠ []).
    { intros H. now apply missingFields_nil in H. }
    split.
    + unfold any_required_empty in Hany. unfold handleSave.
      destruct s as [l [p k a sb ms ai cn]]; simpl in Hany |- *.
      destruct p, k, a, cn; try reflexivity.
      destruct Hany as [H|[H|[H|H]]]; discriminate H.
    + unfold handleSave.
      destruct (missingFields (credentials s)) as [|f m]; [easy|].
      repeat split; easy.
  - intros Hnone. apply missingFields_nil in Hnone.
    split; [exact Hnone|].
    unfold handleSave. rewrite Hnone. cbn -[testConnection].
    destruct (testConnection w (credentials s)) as [t [v|e]]; reflexivity.
Qed.

Lemma save_validates_four_fields_witness :
  trace (handleSave Sample.world_online initial)
  = [Toasted {| title := "Campos obrigatórios";
                description :=
                  "Por favor, preencha: projectId, apiKey, authDomain";
                variant := destructive |}].
Proof.
  pose proof (save_validates_four_fields Sample.world_online initial)
    as (_ & H & _).
  destruct H as (H & _); [left; reflexivity|]. exact H.
Defined.

(** The effects of the connection test are calls on the SDK and a line on
    the console: it stores nothing and reports nothing to the owner. *)
Lemma testConnection_effects w c :
  Forall sdk_or_console (trace (testConnection w c)).
Proof. unfold testConnection. quiet. Qed.

Lemma testConnection_quiet w c :
  stored (trace (testConnection w c)) = []
  ∧ saves_reported (trace (testConnection w c)) = []
  ∧ toasts (trace (testConnection w c)) = [].
Proof.
  destruct (quiet_effects _ (testConnection_effects w c)) as (? & ? & ? & _).
  auto.
Qed.

Lemma stored_app t1 t2 : stored (t1 ++ t2) = stored t1 ++ stored t2.
Proof. apply omap_app. Qed.

Lemma saves_reported_app t1 t2 :
  saves_reported (t1 ++ t2) = saves_reported t1 ++ saves_reported t2.
Proof. apply omap_app. Qed.

Lemma storage_after_unstored t storage :
  stored t = [] → storage_after t storage = storage.
Proof.
  revert storage. induction t as [|e t IH]; intros storage H; [reflexivity|].
  destruct e; cbn in H |- *; try discriminate; now apply IH.
Qed.

(** What [handleSave] does once validation has passed, by the outcome of
    the connection test. *)
Lemma handleSave_validated w s :
  missingFields (credentials s) = [] →
  trace (handleSave w s)
  = SetIsLoading true :: trace (testConnection w (credentials s))
    ++ match outcome (testConnection w (credentials s)) with
       | Resolved _ =>
           [ StorageSetItem localStorage_key (JSON.stringify (credentials s));
             OnCredentialsSave (credentials s);
             Toasted saved_toast;
             SetIsLoading false ]
       | Rejected _ => [Toasted failed_toast; SetIsLoading false]
       end.
Proof.
  intros Hm. unfold handleSave. rewrite Hm. cbn -[testConnection].
  destruct (testConnection w (credentials s)) as [t [v|e]]; cbn;
    rewrite <- ?app_assoc; reflexivity.
Qed.

(** C2. When the live round trip of the connection test fails, [handleSave]
    writes nothing to local storage, which is left as it was, and does not
    tell the owner that credentials were saved; the one notice is the
    connection failure.  A write under the credentials key happens only
    when the round trip has succeeded. *)
Theorem save_needs_round_trip (w : World) (s : State)
  (storage : gmap string string) (reason : string) :
  outcome (testConnection w (credentials s)) = Rejected reason →
  let t := trace (handleSave w s) in
  stored t = []
  ∧ storage_after t storage = storage
  ∧ getItem (storage_after t storage) localStorage_key
    = getItem storage localStorage_key
  ∧ saves_reported t = []
  ∧ (missingFields (credentials s) = [] → toasts t = [failed_toast]).
Proof.
  intros Hfail. cbn zeta.
  assert (Hs : stored (trace (handleSave w s)) = []
               ∧ saves_reported (trace (handleSave w s)) = []).
  { destruct (missingFields (credentials s)) as [|f m] eqn:Hm.
    - rewrite (handleSave_validated w s Hm), Hfail.
      destruct (testConnection_quiet w (credentials s)) as (H1 & H2 & _).
      unfold stored, saves_reported in *. cbn.
      rewrite !omap_app, H1, H2. split; reflexivity.
    - unfold handleSave. rewrite Hm. split; reflexivity. }
  destruct Hs as [Hs Hr].
  rewrite (storage_after_unstored _ storage Hs).
  repeat split; try assumption.
  intros Hm. rewrite (handleSave_validated w s Hm), Hfail.
  destruct (testConnection_quiet w (credentials s)) as (_ & _ & H3).
  unfold toasts in *. cbn. rewrite omap_app, H3. reflexivity.
Qed.

Lemma save_needs_round_trip_witness :
  outcome (testConnection Sample.world_offline Sample.profile)
  = Rejected "unavailable"
  ∧ stored (trace (handleSave Sample.world_offline
                     {| isLoading := false; credentials := Sample.profile |}))
    = [].
Proof.
  split; [reflexivity|].
  apply (save_needs_round_trip Sample.world_offline
           {| isLoading := false; credentials := Sample.profile |}
           ∅ "unavailable").
  reflexivity.
Defined.

(** When the round trip succeeds the credentials are stored under the key
    and reported to the owner, after the calls on the remote store. *)
Lemma save_after_round_trip w s :
  missingFields (credentials s) = [] →
  (∃ b, outcome (testConnection w (credentials s)) = Resolved b) →
  let t := trace (handleSave w s) in
  stored t = [(localStorage_key, JSON.stringify (credentials s))]
  ∧ saves_reported t = [credentials s]
  ∧ toasts t = [saved_toast]
  ∧ ∃ before,
      t = before ++ [ StorageSetItem localStorage_key
                        (JSON.stringify (credentials s));
                      OnCredentialsSave (credentials s);
                      Toasted saved_toast; SetIsLoading false ]
      ∧ remote_calls t = remote_calls before.
Proof.
  intros Hm [b Hb]. cbn zeta.
  rewrite (handleSave_validated w s Hm), Hb.
  destruct (testConnection_quiet w (credentials s)) as (H1 & H2 & H3).
  unfold stored, saves_reported, toasts in *. cbn.
  rewrite !omap_app, H1, H2, H3. repeat split.
  exists (SetIsLoading true :: trace (testConnection w (credentials s))).
  split; [reflexivity|].
  unfold remote_calls.
  change (SetIsLoading true :: trace (testConnection w (credentials s)) ++ ?l)
    with ((SetIsLoading true :: trace (testConnection w (credentials s))) ++ l).
  rewrite List.filter_app. apply app_nil_r.
Qed.

Example save_online :
  trace (handleSave Sample.world_online
           {| isLoading := false; credentials := Sample.profile |})
  = [ SetIsLoading true;
      InitializeApp
        {| options := firebaseConfig Sample.profile;
           app_name := "test-app-1700000000000" |};
      AddDoc
        {| db := {| options := firebaseConfig Sample.profile;
                    app_name := "test-app-1700000000000" |};
           path := JSON.JString "medical_records" |}
        [ ("test", VBool true); ("timestamp", VIsoString 1700000000001);
          ("connectionTest", VString "success") ];
      DeleteDoc
        {| parent :=
             {| db := {| options := firebaseConfig Sample.profile;
                         app_name := "test-app-1700000000000" |};
                path := JSON.JString "medical_records" |};
           id := "doc-1" |};
      StorageSetItem "firestore_credentials" (JSON.stringify Sample.profile);
      OnCredentialsSave Sample.profile;
      Toasted saved_toast;
      SetIsLoading false ].
Proof. reflexivity. Qed.

(** *** Mounting over a stored value that does not parse *)

(** C10, as the code has it.  When the text stored under the credentials
    key is not empty and is not JSON, the panel catches the failure of
    [JSON.parse], logs it and keeps its initial fields (the collection
    [medical_records], everything else empty), and the page sets its
    connected flag, which the panel shows: the page looks at whether the
    stored text is a non-empty string, not at what it holds. *)
Theorem unparseable_value_on_mount (storage : gmap string string)
  (saved : string) :
  getItem storage localStorage_key = Some saved →
  saved ≠ EmptyString →
  JSON.parse saved = None →
  useEffect_mount storage
    = KeepsState [ConsoleError "Error parsing saved credentials:" "SyntaxError"]
  ∧ mount storage = Some initial
  ∧ collectionName (credentials initial) = "medical_records"
  ∧ projectId (credentials initial) = EmptyString
  ∧ apiKey (credentials initial) = EmptyString
  ∧ authDomain (credentials initial) = EmptyString
  ∧ storageBucket (credentials initial) = EmptyString
  ∧ messagingSenderId (credentials initial) = EmptyString
  ∧ appId (credentials initial) = EmptyString
  ∧ shows_connected (Index.isConnected (Index.mount storage)) = true.
Proof.
  intros Hget Hne Hparse.
  assert (Ht : JS.truthy saved = true) by now destruct saved.
  unfold mount, useEffect_mount, Index.mount, Index.useEffect_mount.
  rewrite Hget, Ht, Hparse. repeat split.
Qed.

Lemma unparseable_value_on_mount_witness :
  JSON.parse "{oops" = None
  ∧ mount (setItem localStorage_key "{oops" ∅) = Some initial
  ∧ Index.isConnected (Index.mount (setItem localStorage_key "{oops" ∅))
    = true.
Proof.
  pose proof (unparseable_value_on_mount
                (setItem localStorage_key "{oops" ∅) "{oops"
                eq_refl ltac:(discriminate) eq_refl) as H.
  split; [reflexivity|]. split; apply H.
Defined.

(** C10 at the empty text.  It is stored under the key and it is not JSON,
    yet nothing is parsed, nothing is caught, and the page does not show the
    indicator. *)
Lemma empty_value_on_mount :
  let storage := setItem localStorage_key EmptyString ∅ in
  getItem storage localStorage_key = Some EmptyString
  ∧ JSON.parse EmptyString = None
  ∧ useEffect_mount storage = KeepsState []
  ∧ shows_connected (Index.isConnected (Index.mount storage)) = false.
Proof. repeat split. Qed.


End Panel.

(** ** The page *)

Section Page.
Import SDK Index.

Lemma property_effects v key : trace (property v key) = [].
Proof. unfold property. now destruct (JSON.get v key). Qed.

(** Up to the write, [handleSubmit] only talks to the SDK. *)
Lemma write_record_effects w storage r :
  Forall sdk_or_console (trace (write_record w storage r)).
Proof.
  unfold write_record, property. quiet.
Qed.

Lemma apply_quiet_effects t s :
  Forall sdk_or_console t → apply_effects t s = s.
Proof.
  intros H. revert s. induction H as [|e t He _ IH]; intros s; [reflexivity|].
  cbn. destruct e; try contradiction; destruct s; apply IH.
Qed.

Lemma apply_effects_app t1 t2 s :
  apply_effects (t1 ++ t2) s = apply_effects t2 (apply_effects t1 s).
Proof. apply foldl_app. Qed.

(** The three fields of the record are filled in. *)
Lemma complete_record r :
  ecg r ≠ EmptyString → laudo r ≠ EmptyString → descricao r ≠ EmptyString →
  negb (JS.truthy (ecg r)) || negb (JS.truthy (laudo r))
  || negb (JS.truthy (descricao r)) = false.
Proof. destruct r as [[|] [|] [|]]; cbn; congruence. Qed.

Lemma incomplete_record r :
  ecg r = EmptyString ∨ laudo r = EmptyString ∨ descricao r = EmptyString →
  negb (JS.truthy (ecg r)) || negb (JS.truthy (laudo r))
  || negb (JS.truthy (descricao r)) = true.
Proof.
  destruct r as [[|] [|] [|]]; cbn; try reflexivity.
  intros [H|[H|H]]; discriminate.
Qed.

(** What [handleSubmit] does once past its two guards, by the outcome of
    the write. *)
Lemma handleSubmit_attempt w storage s :
  isConnected s = true →
  ecg (record s) ≠ EmptyString → laudo (record s) ≠ EmptyString →
  descricao (record s) ≠ EmptyString →
  trace (handleSubmit w storage s)
  = SetIsSubmitting true :: trace (write_record w storage (record s))
    ++ match outcome (write_record w storage (record s)) with
       | Resolved docRef =>
           [ ConsoleLog "Document written with ID: ";
             Toasted (sent_toast (id docRef));
             SetRecord empty_record;
             SetIsSubmitting false ]
       | Rejected error =>
           [ ConsoleError "Error submitting to Firestore:" error;
             Toasted send_failed;
             SetIsSubmitting false ]
       end.
Proof.
  intros Hc He Hl Hd. unfold handleSubmit.
  rewrite Hc, (complete_record _ He Hl Hd). cbn -[write_record].
  destruct (write_record w storage (record s)) as [t [docRef|e]]; cbn;
    rewrite <- ?app_assoc; reflexivity.
Qed.






(** *** Without a profile *)

Lemma step_stays_disconnected s e :
  isConnected s = false → is_save e = false →
  isConnected (step s e) = false.
Proof.
  intros Hs He. destruct e as [tab|f v|c|w storage]; try discriminate He;
    try exact Hs.
  unfold step, handle. destruct (isSubmitting s); [exact Hs|].
  unfold handleSubmit. rewrite Hs. exact Hs.
Qed.

Lemma run_stays_disconnected es : ∀ s,
  isConnected s = false → existsb is_save es = false →
  isConnected (run s es) = false.
Proof.
  induction es as [|e es IH]; intros s Hs Hes; [exact Hs|].
  cbn in Hes. apply orb_false_iff in Hes as [He Hes].
  apply (IH (step s e)); [now apply step_stays_disconnected | exact Hes].
Qed.

Lemma mount_without_profile storage :
  getItem storage localStorage_key = None →
  isConnected (mount storage) = false.
Proof. intros H. unfold mount, useEffect_mount. now rewrite H. Qed.

(** C4. When nothing is stored under the credentials key as the page
    mounts and the panel reports no save afterwards, then whatever else
    happened on the page, [handleSubmit] says that a connection is needed,
    switches to the settings tab and returns: the remote store is not
    called and the record stays as it is. *)
Theorem submit_needs_profile (mounted_on : gmap string string)
  (es : list Event) (w : World) (storage : gmap string string) :
  getItem mounted_on localStorage_key = None →
  existsb is_save es = false →
  let s := run (mount mounted_on) es in
  let t := trace (handleSubmit w storage s) in
  t = [Toasted connection_required; SetActiveTab "config"]
  ∧ toasts t = [connection_required]
  ∧ remote_calls t = []
  ∧ activeTab (apply_effects t s) = "config"
  ∧ record (apply_effects t s) = record s.
Proof.
  intros Hget Hes. cbn zeta.
  pose proof (run_stays_disconnected es _
                (mount_without_profile _ Hget) Hes) as Hd.
  unfold handleSubmit. rewrite Hd. repeat split.
Qed.

Lemma submit_needs_profile_witness :
  trace (handleSubmit Sample.world_online ∅
           (run (mount ∅)
              [FieldChange Ecg "data:image/png;base64,XX";
               FieldChange Laudo "data:image/png;base64,YY";
               FieldChange Descricao "ok"]))
  = [Toasted connection_required; SetActiveTab "config"].
Proof.
  apply (submit_needs_profile ∅
           [FieldChange Ecg "data:image/png;base64,XX";
            FieldChange Laudo "data:image/png;base64,YY";
            FieldChange Descricao "ok"]
           Sample.world_online ∅); reflexivity.
Defined.

(** *** An incomplete record *)

(** C5, as the code has it.  With a field of the record empty,
    [handleSubmit] stops at one of its two guards: it calls nothing remote,
    does not enter the submitting state and leaves the record alone.  The
    notice is the one for missing fields when a profile is active; when
    none is, the first guard answers instead, with the notice that a
    connection is needed. *)
Theorem incomplete_record_refused (w : World)
  (storage : gmap string string) (s : State) :
  ecg (record s) = EmptyString ∨ laudo (record s) = EmptyString
  ∨ descricao (record s) = EmptyString →
  let t := trace (handleSubmit w storage s) in
  remote_calls t = []
  ∧ record (apply_effects t s) = record s
  ∧ isSubmitting (apply_effects t s) = isSubmitting s
  ∧ (isConnected s = true → t = [Toasted fields_required])
  ∧ (isConnected s = false →
       t = [Toasted connection_required; SetActiveTab "config"]).
Proof.
  intros Hr. cbn zeta. unfold handleSubmit.
  rewrite (incomplete_record _ Hr).
  destruct (isConnected s); repeat split; discriminate.
Qed.

Lemma incomplete_record_refused_witness :
  trace (handleSubmit Sample.world_online Sample.storage_with_profile
           {| activeTab := "data"; isConnected := true;
              isSubmitting := false;
              record := {| ecg := "data:image/png;base64,XX";
                           laudo := EmptyString; descricao := "ok" |} |})
  = [Toasted fields_required].
Proof.
  apply (incomplete_record_refused Sample.world_online
           Sample.storage_with_profile
           {| activeTab := "data"; isConnected := true;
              isSubmitting := false;
              record := {| ecg := "data:image/png;base64,XX";
                           laudo := EmptyString; descricao := "ok" |} |});
    [right; left|]; reflexivity.
Defined.

(** C5 with no profile active: the notice for an empty record is not the
    one for missing fields. *)
Lemma incomplete_record_while_disconnected :
  record initial = empty_record
  ∧ isConnected initial = false
  ∧ toasts (trace (handleSubmit Sample.world_online ∅ initial))
    = [connection_required]
  ∧ ¬ In fields_required
        (toasts (trace (handleSubmit Sample.world_online ∅ initial))).
Proof.
  repeat split. cbn. intros [H|[]]. discriminate H.
Qed.

(** *** The submission scenario *)




End Page.

(** * Further properties *)

(** ** The widget, one upload at a time *)

Section Widget_uploads.
Import FileAPI ImageUpload.

Lemma image_upload_begins file :
  JS.startsWith (type file) "image/" = true →
  handleFileUpload_begin file = ([SetIsLoading true], Resolved (Some file)).
Proof. intros H. unfold handleFileUpload_begin. now rewrite H. Qed.

Lemma other_upload_refused file :
  JS.startsWith (type file) "image/" = false →
  handleFileUpload_begin file = ([Alert images_only], Resolved None).
Proof. intros H. unfold handleFileUpload_begin. now rewrite H. Qed.

(** X1. An image whose bytes can be read goes through [handleFileUpload] as
    one change notification between raising and lowering the busy flag; the
    value the widget then holds is the data URL of the file, which decodes
    to its bytes. *)
Theorem upload_stores_decodable_text (file : File) (w : Widget) :
  JS.startsWith (type file) "image/" = true →
  let t := trace (handleFileUpload true file) in
  t = [ SetIsLoading true;
        OnChange (DataURL.make (type file) (content file));
        SetIsLoading false ]
  ∧ value (apply_effects t w) = DataURL.make (type file) (content file)
  ∧ DataURL.decode (value (apply_effects t w)) = Some (content file)
  ∧ isLoading (state (apply_effects t w)) = false.
Proof.
  intros Hty. cbn zeta. unfold handleFileUpload. rewrite Hty.
  repeat split. apply decode_make.
Qed.

Lemma upload_stores_decodable_text_witness :
  DataURL.decode
    (value (apply_effects (trace (handleFileUpload true Sample.png))
              (mounted EmptyString)))
  = Some (content Sample.png).
Proof.
  apply (upload_stores_decodable_text Sample.png (mounted EmptyString)).
  reflexivity.
Defined.

(** X2. When the bytes of an image cannot be read, [handleFileUpload] logs
    the error and alerts, notifies no change, leaves the value alone and
    still lowers the busy flag. *)
Theorem unreadable_image_keeps_value (file : File) (w : Widget) :
  JS.startsWith (type file) "image/" = true →
  let t := trace (handleFileUpload false file) in
  t = [ SetIsLoading true;
        ConsoleError "Error converting file:" "NotReadableError";
        Alert processing_failed;
        SetIsLoading false ]
  ∧ changes t = []
  ∧ value (apply_effects t w) = value w
  ∧ isLoading (state (apply_effects t w)) = false.
Proof.
  intros Hty. cbn zeta. unfold handleFileUpload. rewrite Hty.
  repeat split.
Qed.

Lemma unreadable_image_keeps_value_witness :
  value (apply_effects (trace (handleFileUpload false Sample.png))
           (mounted "old"))
  = "old".
Proof.
  apply (unreadable_image_keeps_value Sample.png (mounted "old")).
  reflexivity.
Defined.

(** X3. Clearing does not cancel a read in flight: when its reader fires
    after the field was cleared, the field is filled again with the data URL
    of the file that was being read. *)
Theorem clear_does_not_cancel_read (w : Widget) (k : nat) (file : File) :
  JS.truthy (value w) = true →
  reading w !! k = Some file →
  ∃ w1 w2,
    dispatch w ClearClick = Some w1
    ∧ value w1 = EmptyString ∧ reading w1 = reading w
    ∧ dispatch w1 (ReaderFired k true) = Some w2
    ∧ value w2 = DataURL.make (type file) (content file)
    ∧ reading w2 = delete k (reading w).
Proof.
  intros Hv Hk. eexists _, _. unfold dispatch at 1. cbn [render clear_button].
  rewrite Hv. split; [reflexivity|]. split; [reflexivity|].
  split; [reflexivity|].
  unfold dispatch. cbn [apply_effects trace clearImage emit fst foldl
                        apply_effect reading].
  rewrite Hk. cbn. repeat split.
Qed.

Lemma clear_does_not_cancel_read_witness :
  ∃ w1 w2,
    dispatch {| value := "old"; state := {| isDragging := false;
                                            isLoading := true |};
                reading := [Sample.png]; orphans := [] |} ClearClick
    = Some w1
    ∧ value w1 = EmptyString ∧ reading w1 = [Sample.png]
    ∧ dispatch w1 (ReaderFired 0 true) = Some w2
    ∧ value w2 = "data:image/png;base64,iVBORw=="
    ∧ reading w2 = [].
Proof.
  exact (clear_does_not_cancel_read
           {| value := "old"; state := {| isDragging := false;
                                          isLoading := true |};
              reading := [Sample.png]; orphans := [] |}
           0 Sample.png eq_refl eq_refl).
Defined.

End Widget_uploads.

(** ** The widget and its reads in flight *)

Section Widget_reads.
Import FileAPI ImageUpload.

Lemma resume_lowers_flag settled w :
  let w' := apply_effects (trace (handleFileUpload_resume settled)) w in
  isLoading (state w') = false ∧ reading w' = reading w
  ∧ orphans w' = orphans w.
Proof. destruct settled; repeat split; reflexivity. Qed.

(** A reader of an earlier instance that fires changes neither the state
    of the mounted instance nor its reads. *)
Lemma unmounted_resume_keeps_state settled w :
  let w' :=
    apply_unmounted_effects (trace (handleFileUpload_resume settled)) w in
  state w' = state w ∧ reading w' = reading w ∧ orphans w' = orphans w.
Proof. destruct settled; repeat split; reflexivity. Qed.

(** An upload begun on an idle widget is the one read in flight. *)
Lemma launch_on_idle (m : Run (option File)) file w :
  reading w = [] → isLoading (state w) = false →
  m = handleFileUpload_begin file →
  one_read (launch m w) ∧ orphans (launch m w) = orphans w.
Proof.
  intros Hr Hl ->. unfold handleFileUpload_begin.
  destruct (JS.startsWith (type file) "image/").
  - split; [|reflexivity].
    right. exists file. cbn. rewrite Hr. split; reflexivity.
  - split; [|reflexivity]. left. cbn. split; assumption.
Qed.

Lemma one_read_step w e w' :
  one_read w → is_drop e = false → dispatch w e = Some w' →
  one_read w'
  ∧ (is_widget_remount e = false → orphans w = [] → orphans w' = []).
Proof.
  intros Hinv He Hd.
  destruct e as [files| | |files| |k readable| |k readable|];
    try discriminate He; cbn in Hd.
  - injection Hd as <-. split; [exact Hinv | intros _ H; exact H].
  - injection Hd as <-. split; [exact Hinv | intros _ H; exact H].
  - destruct (JS.truthy (value w)); [discriminate|].
    destruct (isLoading (state w)) eqn:Hl; [discriminate|].
    injection Hd as <-.
    destruct Hinv as [[Hr _]|(f & _ & Hb)]; [|congruence].
    destruct files as [[|file rest]|];
      try (split; [left; split; assumption | intros _ H; exact H]).
    destruct (launch_on_idle _ file w Hr Hl eq_refl) as [H1 H2].
    split; [exact H1|]. intros _ H. now rewrite <- H.
  - destruct (JS.truthy (value w)); [|discriminate].
    injection Hd as <-. split; [exact Hinv | intros _ H; exact H].
  - destruct (reading w !! k) as [file|] eqn:Hk; [|discriminate].
    cbn in Hd. injection Hd as <-.
    destruct (resume_lowers_flag (convertToBase64 readable file) w)
      as (Hl & Hr' & Ho). cbn zeta in Hl, Hr', Ho.
    split; [|intros _ H; cbn [orphans]; now rewrite Ho].
    destruct Hinv as [[Hr _]|(f & Hr & _)]; [now rewrite Hr in Hk|].
    rewrite Hr in Hk. destruct k as [|k]; [|discriminate].
    left. cbn [reading state]. rewrite Hr', Hr.
    split; [reflexivity | exact Hl].
  - injection Hd as <-. split; [|discriminate].
    left. split; reflexivity.
  - destruct (orphans w !! k) as [file|] eqn:Hk; [|discriminate].
    cbn in Hd. injection Hd as <-.
    destruct (unmounted_resume_keeps_state
                (convertToBase64 readable file) w) as (Hs & Hr & Ho).
    cbn zeta in Hs, Hr, Ho.
    split.
    + unfold one_read. cbn [reading state]. rewrite Hs, Hr. exact Hinv.
    + intros _ H. now rewrite H in Hk.
  - injection Hd as <-. split; [exact Hinv | intros _ H; exact H].
Qed.

Lemma one_read_run es : ∀ w0 w,
  existsb is_drop es = false →
  dispatch_all w0 es = Some w →
  one_read w0 →
  one_read w
  ∧ (existsb is_widget_remount es = false → orphans w0 = [] →
     orphans w = []).
Proof.
  induction es as [|e es IH]; intros w0 w Hes Hrun Hinv.
  - injection Hrun as <-. split; [exact Hinv | intros _ H; exact H].
  - cbn in Hes. apply orb_false_iff in Hes as [He Hes].
    cbn in Hrun. destruct (dispatch w0 e) as [w1|] eqn:Hd; [|discriminate].
    destruct (one_read_step _ _ _ Hinv He Hd) as [H1 H2].
    destruct (IH w1 w Hes Hrun H1) as [H3 H4].
    split; [exact H3|]. intros Hre Hno. cbn in Hre.
    apply orb_false_iff in Hre as [Hre Hres].
    exact (H4 Hres (H2 Hre Hno)).
Qed.

(** X4. As long as files only come in through the picker, the busy flag
    does its work for the widget that is mounted: whatever the user does,
    tab switches among it, the mounted widget has at most one read of its
    own in flight, and its flag is up exactly while it has one.  A switch
    of tab does not cancel a read: the widget mounted afterwards is idle
    and its picker enabled while the read of the earlier one is still in
    flight.  Where the tab was never left, no such read exists, and at
    most one read is in flight at all. *)
Theorem picker_reads_one_at_a_time (v : string) (es : list Event)
  (w : Widget) :
  existsb is_drop es = false →
  dispatch_all (mounted v) es = Some w →
  ((reading w = [] ∧ busy w = false)
   ∨ (∃ file, reading w = [file] ∧ busy w = true))
  ∧ (existsb is_widget_remount es = false → orphans w = []).
Proof.
  intros Hes Hrun.
  assert (Hinit : one_read (mounted v)) by (left; split; reflexivity).
  destruct (one_read_run es _ _ Hes Hrun Hinit) as [H1 H2].
  split; [exact H1|]. intros Hre. exact (H2 Hre eq_refl).
Qed.

Lemma picker_reads_one_at_a_time_witness :
  ∃ w, dispatch_all (mounted EmptyString)
         [FileSelect (Some [Sample.png]); DragOver; ReaderFired 0 true;
          ClearClick; FileSelect (Some [Sample.png; Sample.pdf])]
       = Some w
       ∧ reading w = [Sample.png] ∧ busy w = true ∧ orphans w = [].
Proof.
  eexists. split; [reflexivity|].
  destruct (picker_reads_one_at_a_time EmptyString
              [FileSelect (Some [Sample.png]); DragOver; ReaderFired 0 true;
               ClearClick; FileSelect (Some [Sample.png; Sample.pdf])]
              _ eq_refl eq_refl) as [[[H _]|(f & H1 & H2)] H3].
  - discriminate H.
  - split; [reflexivity|]. split; [exact H2 | exact (H3 eq_refl)].
Defined.

(** A switch of tab while a read is in flight: the picker of the widget
    mounted afterwards is enabled, a second file is accepted, and the two
    reads are in flight together; the field ends with the file whose reader
    fires last. *)
Lemma remount_enables_picker (f1 f2 : File) :
  JS.startsWith (type f1) "image/" = true →
  JS.startsWith (type f2) "image/" = true →
  ∃ w w',
    dispatch_all (mounted EmptyString)
      [FileSelect (Some [f1]); Remount; FileSelect (Some [f2])]
    = Some w
    ∧ orphans w = [f1] ∧ reading w = [f2]
    ∧ dispatch_all w [ReaderFired 0 true; OrphanFired 0 true] = Some w'
    ∧ orphans w' = [] ∧ reading w' = [] ∧ busy w' = false
    ∧ value w' = DataURL.make (type f1) (content f1).
Proof.
  intros H1 H2. eexists _, _.
  unfold dispatch_all, dispatch, handleFileSelect_begin.
  cbn [mounted render file_input value state initial isLoading JS.truthy].
  cbn [mbind option_bind].
  rewrite (image_upload_begins f1 H1). cbn.
  rewrite (image_upload_begins f2 H2). cbn. repeat split.
Qed.

(** X5. Two dropped images race: when the reader of the first fires, the
    busy flag is lowered although the read of the second is still in
    flight, and the value at the end is that of the reader that fired
    last, whichever file was dropped first. *)
Theorem racing_drops (v : string) (f1 f2 : File) :
  JS.startsWith (type f1) "image/" = true →
  JS.startsWith (type f2) "image/" = true →
  ∃ w w',
    dispatch_all (mounted v) [Drop [f1]; Drop [f2]; ReaderFired 0 true]
    = Some w
    ∧ reading w = [f2] ∧ busy w = false
    ∧ dispatch_all (mounted v)
        [Drop [f1]; Drop [f2]; ReaderFired 1 true; ReaderFired 0 true]
      = Some w'
    ∧ reading w' = []
    ∧ value w' = DataURL.make (type f1) (content f1).
Proof.
  intros H1 H2. eexists _, _.
  unfold dispatch_all, dispatch, handleDrop_begin.
  rewrite (image_upload_begins f1 H1), (image_upload_begins f2 H2).
  cbn. repeat split.
Qed.

Lemma racing_drops_witness :
  ∃ w, dispatch_all (mounted EmptyString)
         [Drop [Sample.png]; Drop [Sample.png]; ReaderFired 0 true]
       = Some w
       ∧ reading w = [Sample.png] ∧ busy w = false.
Proof.
  destruct (racing_drops EmptyString Sample.png Sample.png eq_refl eq_refl)
    as (w & w' & H1 & H2 & H3 & _).
  exists w. repeat split; assumption.
Defined.

End Widget_reads.

(** ** The panel: editing, testing, saving *)

Section Panel_more.
Import SDK FirestoreConfig.

Ltac by_names :=
  repeat match goal with
         | |- context [String.eqb ?a ?b] =>
             destruct (String.eqb_spec a b); subst; cbn
         | H : context [String.eqb ?a ?b] |- _ =>
             destruct (String.eqb_spec a b); subst; cbn in H
         end.

(** X6. [handleInputChange] writes the one field it names: afterwards that
    field reads as the new value, every other field reads as before, and
    the busy flag is untouched. *)
Theorem input_changes_one_field (s : State) (field value other : string) :
  index (credentials s) field ≠ None →
  let s' := apply_effects (trace (handleInputChange s field value)) s in
  index (credentials s') field = Some value
  ∧ (other ≠ field →
       index (credentials s') other = index (credentials s) other)
  ∧ isLoading s' = isLoading s.
Proof.
  intros Hkey. cbn zeta. cbn [handleInputChange trace emit fst apply_effects
                               foldl apply_effect credentials isLoading].
  split; [|split; [|reflexivity]].
  - unfold index in *. unfold with_field. by_names; congruence.
  - intros Hne. unfold index, with_field. by_names; congruence.
Qed.

Lemma input_changes_one_field_witness :
  index (credentials
           (apply_effects (trace (handleInputChange initial "apiKey" "k"))
              initial)) "apiKey" = Some "k".
Proof.
  apply (input_changes_one_field initial "apiKey" "k" "appId").
  discriminate.
Defined.

(** Case analysis on what the SDK answers, one call at a time. *)
Ltac by_answers :=
  cbn -[getItem JSON.parse JSON.get pretty];
  repeat match goal with
         | |- context [match ?x with _ => _ end] =>
             lazymatch x with
             | getItem _ _ => idtac
             | JS.truthy _ => idtac
             | JSON.parse _ => idtac
             | JSON.get _ _ => idtac
             | initializeApp_error _ _ _ => idtac
             | getFirestore_error _ _ => idtac
             | collection_error _ _ _ => idtac
             | addDoc_outcome _ _ _ => idtac
             | deleteDoc_outcome _ _ => idtac
             end;
             destruct x eqn:?; cbn -[getItem JSON.parse JSON.get pretty]
         end.

(** X7. The connection test resolves only with [true], and only after both
    of its calls have resolved: an [addDoc] of the marker document on the
    collection of the credentials under test, then a [deleteDoc] of the very
    document that came back.  These are all its calls on the remote
    store. *)
Theorem test_deletes_what_it_wrote (w : World) (c : FirestoreCredentials)
  (b : bool) :
  let app := {| options := firebaseConfig c;
                app_name := "test-app-" +:+ pretty (now w 0) |} in
  let coll := {| db := app; path := JSON.JString (collectionName c) |} in
  outcome (testConnection w c) = Resolved b →
  b = true
  ∧ ∃ i,
      addDoc_outcome (firebase w) coll (test_document w) = Resolved i
      ∧ deleteDoc_outcome (firebase w) {| parent := coll; id := i |}
        = Resolved tt
      ∧ remote_calls (trace (testConnection w c))
        = [ AddDoc coll (test_document w);
            DeleteDoc {| parent := coll; id := i |} ].
Proof.
  cbn zeta.
  unfold testConnection, Firestore.initializeApp, Firestore.getFirestore,
    Firestore.collection, Firestore.addDoc, Firestore.deleteDoc, firebaseConfig.
  by_answers; try discriminate.
  intros [= <-]. split; [reflexivity|]. eexists. split; [reflexivity|].
  split; [|reflexivity].
  match goal with H : deleteDoc_outcome _ _ = Resolved ?u |- _ =>
    destruct u; exact H end.
Qed.

Lemma test_deletes_what_it_wrote_witness :
  remote_calls (trace (testConnection Sample.world_online Sample.profile))
  = [ AddDoc
        {| db := {| options := firebaseConfig Sample.profile;
                    app_name := "test-app-1700000000000" |};
           path := JSON.JString "medical_records" |}
        (test_document Sample.world_online);
      DeleteDoc
        {| parent :=
             {| db := {| options := firebaseConfig Sample.profile;
                         app_name := "test-app-1700000000000" |};
                path := JSON.JString "medical_records" |};
           id := "doc-1" |} ].
Proof.
  destruct (test_deletes_what_it_wrote Sample.world_online Sample.profile
              true eq_refl) as (_ & i & Ha & _ & Hr).
  injection Ha as <-. exact Hr.
Defined.

(** X8. When the connection test rejects, it has logged the reason it
    rejects with as its last effect.  It attempts no [deleteDoc] when the
    [addDoc] was rejected, and never deletes anything but the document its
    own [addDoc] returned. *)
Theorem test_rejection_is_logged (w : World) (c : FirestoreCredentials)
  (reason : string) :
  let app := {| options := firebaseConfig c;
                app_name := "test-app-" +:+ pretty (now w 0) |} in
  let coll := {| db := app; path := JSON.JString (collectionName c) |} in
  outcome (testConnection w c) = Rejected reason →
  last (trace (testConnection w c))
  = Some (ConsoleError "Connection test failed:" reason)
  ∧ match addDoc_outcome (firebase w) coll (test_document w) with
    | Rejected _ => ∀ ref, ¬ In (DeleteDoc ref) (trace (testConnection w c))
    | Resolved i =>
        ∀ ref, In (DeleteDoc ref) (trace (testConnection w c)) →
               ref = {| parent := coll; id := i |}
    end.
Proof.
  cbn zeta.
  unfold testConnection, Firestore.initializeApp, Firestore.getFirestore,
    Firestore.collection, Firestore.addDoc, Firestore.deleteDoc, firebaseConfig.
  by_answers; try discriminate; intros [= <-]; (split; [reflexivity|]);
    intros ref H; cbn in H; intuition congruence.
Qed.

Lemma test_rejection_is_logged_witness :
  last (trace (testConnection Sample.world_offline Sample.profile))
  = Some (ConsoleError "Connection test failed:" "unavailable").
Proof.
  apply (test_rejection_is_logged Sample.world_offline Sample.profile
           "unavailable" eq_refl).
Defined.

Lemma panel_apply_quiet t s :
  Forall sdk_or_console t → apply_effects t s = s.
Proof.
  intros H. revert s. induction H as [|e t He _ IH]; intros s; [reflexivity|].
  cbn. destruct e; try contradiction; destruct s; apply IH.
Qed.

Lemma panel_apply_app t1 t2 s :
  apply_effects (t1 ++ t2) s = apply_effects t2 (apply_effects t1 s).
Proof. apply foldl_app. Qed.



(** X10. [handleSave] never edits the form, and it leaves the busy flag
    down on every path past validation, whether the test resolved or
    rejected; when validation fails it does not touch the flag.  [s0] is
    the state its setters land on. *)
Theorem save_leaves_form (w : World) (s s0 : State) :
  let s' := apply_effects (trace (handleSave w s)) s0 in
  credentials s' = credentials s0
  ∧ (missingFields (credentials s) = [] → isLoading s' = false)
  ∧ (missingFields (credentials s) ≠ [] → isLoading s' = isLoading s0).
Proof.
  cbn zeta. destruct (missingFields (credentials s)) as [|f m] eqn:Hm.
  - rewrite (handleSave_validated w s Hm).
    pose proof (testConnection_effects w (credentials s)) as Hq.
    change (SetIsLoading true :: ?a ++ ?b) with ([SetIsLoading true] ++ a ++ b).
    rewrite !panel_apply_app, (panel_apply_quiet _ _ Hq).
    destruct (outcome (testConnection w (credentials s)));
      (split; [reflexivity|]); split; [reflexivity|easy|reflexivity|easy].
  - unfold handleSave. rewrite Hm. cbn. split; [reflexivity|].
    split; [discriminate | reflexivity].
Qed.




End Panel_more.

(** ** The panel and its saves in flight *)

Section Save_flow.
Import SDK FirestoreConfig SaveFlow.

Ltac by_sdk :=
  cbn -[pretty JSON.stringify];
  repeat match goal with
         | |- context [match ?x with _ => _ end] =>
             lazymatch x with
             | initializeApp_error _ _ _ => idtac
             | getFirestore_error _ _ => idtac
             | collection_error _ _ _ => idtac
             | addDoc_outcome _ _ _ => idtac
             | deleteDoc_outcome _ _ => idtac
             end;
             destruct x eqn:?; cbn -[pretty JSON.stringify]
         end.

(** The three parts of [handleSave] make up the whole, when each awaited
    call settles as the store decides. *)
Lemma handleSave_parts w s :
  handleSave w s
  = (first ← handleSave_begin w s;
     match first with
     | Some (AwaitingAdd c coll) =>
         second ← handleSave_added c coll
                    (addDoc_outcome (firebase w) coll (test_document w));
         match second with
         | Some (AwaitingDelete c' testDoc) =>
             handleSave_deleted c'
               (deleteDoc_outcome (firebase w) testDoc)
         | _ => mret tt
         end
     | _ => mret tt
     end).
Proof.
  unfold handleSave, handleSave_begin.
  destruct (0 <? length (missingFields (credentials s)))%nat; [reflexivity|].
  unfold testConnection, open_collection, handleSave_added,
    handleSave_deleted, test_failed, Firestore.initializeApp,
    Firestore.getFirestore, Firestore.collection, Firestore.addDoc,
    Firestore.deleteDoc.
  by_sdk; reflexivity.
Qed.

Lemma open_collection_coherent w c coll :
  outcome (open_collection w c) = Resolved coll →
  coherent (AwaitingAdd c coll)
  ∧ trace (open_collection w c) = [InitializeApp (db coll)].
Proof.
  unfold open_collection, Firestore.initializeApp, Firestore.getFirestore,
    Firestore.collection.
  by_sdk; try discriminate. intros [= <-]. repeat split.
Qed.

Lemma open_collection_quiet w c :
  Forall sdk_or_console (trace (open_collection w c)).
Proof. unfold open_collection. quiet. Qed.

Lemma handleSave_begin_validated w s :
  missingFields (credentials s) = [] →
  handleSave_begin w s
  = match outcome (open_collection w (credentials s)) with
    | Resolved coll =>
        ([SetIsLoading true] ++ trace (open_collection w (credentials s))
           ++ [AddDoc coll (test_document w)],
         Resolved (Some (AwaitingAdd (credentials s) coll)))
    | Rejected error =>
        ([SetIsLoading true] ++ trace (open_collection w (credentials s))
           ++ [ ConsoleError "Connection test failed:" error;
                Toasted failed_toast; SetIsLoading false ],
         Resolved None)
    end.
Proof.
  intros Hm. unfold handleSave_begin. rewrite Hm.
  cbn -[open_collection].
  destruct (open_collection w (credentials s)) as [t [coll|e]]; cbn;
    rewrite <- ?app_assoc; reflexivity.
Qed.

(** What a click on the save control leaves behind. *)
Lemma begin_cases w s :
  (outcome (handleSave_begin w s) = Resolved None
   ∧ stored (trace (handleSave_begin w s)) = []
   ∧ saves_reported (trace (handleSave_begin w s)) = []
   ∧ ∀ s0, isLoading s0 = false →
       isLoading (apply_effects (trace (handleSave_begin w s)) s0) = false)
  ∨ (∃ coll,
       outcome (handleSave_begin w s)
       = Resolved (Some (AwaitingAdd (credentials s) coll))
       ∧ missingFields (credentials s) = []
       ∧ outcome (open_collection w (credentials s)) = Resolved coll
       ∧ stored (trace (handleSave_begin w s)) = []
       ∧ saves_reported (trace (handleSave_begin w s)) = []
       ∧ ∀ s0, isLoading
                 (apply_effects (trace (handleSave_begin w s)) s0) = true).
Proof.
  destruct (missingFields (credentials s)) as [|f m] eqn:Hm.
  2:{ left. unfold handleSave_begin. rewrite Hm.
      repeat split. intros s0 H. exact H. }
  rewrite (handleSave_begin_validated w s Hm).
  pose proof (open_collection_quiet w (credentials s)) as Hq.
  destruct (quiet_effects _ Hq) as (Hs & Hr & _).
  destruct (outcome (open_collection w (credentials s))) as [coll|e];
    [right; exists coll|left]; unfold stored, saves_reported in *;
    cbn [trace outcome fst snd]; rewrite !omap_app, Hs, Hr;
    repeat split; intros s0; intros;
    rewrite !panel_apply_app, (panel_apply_quiet _ _ Hq); reflexivity.
Qed.

Lemma mount_not_loading st s : mount st = Some s → isLoading s = false.
Proof.
  unfold mount. destruct (useEffect_mount st) as [t|c|v] eqn:Hu;
    try discriminate; intros [= <-]; [|reflexivity].
  unfold useEffect_mount in Hu.
  destruct (getItem st localStorage_key) as [saved|];
    [destruct (JS.truthy saved);
     [destruct (JSON.parse saved) as [v|];
      [destruct (JSON.as_credentials v)|]|]|];
    try discriminate; injection Hu as <-; reflexivity.
Qed.

(** A new instance of the panel is not loading, whatever is stored. *)
Lemma mounted_over_not_loading st shown :
  isLoading (mounted_over st shown) = false.
Proof.
  unfold mounted_over. destruct (mount st) as [s|] eqn:Hm; [|reflexivity].
  exact (mount_not_loading _ _ Hm).
Qed.

Lemma one_save_step p e p' :
  one_save p → dispatch p e = Some p' →
  one_save p'
  ∧ (is_remount e = false → orphans p = [] → orphans p' = []).
Proof.
  intros Hinv Hd.
  destruct e as [field value|w|k settled|k settled|shown|k settled|k settled];
    cbn -[handleSave_begin handleSave_deleted mounted_over] in Hd.
  - injection Hd as <-. split; [exact Hinv | intros _ H; exact H].
  - unfold save_disabled in Hd.
    destruct (isLoading (panel p)) eqn:Hl; [discriminate|].
    injection Hd as <-.
    split; [|intros _ H; unfold continue;
             destruct (outcome (handleSave_begin w (panel p))) as [[x|]|err];
             exact H].
    destruct Hinv as [[Hs _]|(x & _ & _ & Hb)]; [|congruence].
    unfold continue.
    destruct (begin_cases w (panel p))
      as [(Ho & _ & _ & Hflag)|(coll & Ho & _ & Hc & _ & _ & Hflag)];
      rewrite Ho.
    + left. cbn. split; [exact Hs | now apply Hflag].
    + right. exists (AwaitingAdd (credentials (panel p)) coll).
      cbn. rewrite Hs. split; [reflexivity|].
      split; [apply (open_collection_coherent _ _ _ Hc) | apply Hflag].
  - destruct (saves p !! k) as [[c coll|c testDoc]|] eqn:Hk;
      try discriminate. injection Hd as <-.
    split; [|intros _ H; destruct settled; exact H].
    destruct Hinv as [[Hs _]|(x & Hs & Hx & Hb)]; [now rewrite Hs in Hk|].
    rewrite Hs in Hk |- *. destruct k as [|k]; [|discriminate].
    injection Hk as ->. destruct settled as [i|e]; cbn.
    + right. eexists. split; [reflexivity|]. split; [exact Hx | exact Hb].
    + left. split; reflexivity.
  - destruct (saves p !! k) as [[c coll|c testDoc]|] eqn:Hk;
      try discriminate. injection Hd as <-.
    split; [|intros _ H; exact H].
    destruct Hinv as [[Hs _]|(x & Hs & Hx & Hb)]; [now rewrite Hs in Hk|].
    rewrite Hs in Hk |- *. destruct k as [|k]; [|discriminate].
    left. destruct settled as [u|e]; cbn; split; reflexivity.
  - injection Hd as <-. split; [|discriminate].
    left. split; [reflexivity|]. apply mounted_over_not_loading.
  - destruct (orphans p !! k) as [[c coll|c testDoc]|] eqn:Hk;
      try discriminate. injection Hd as <-.
    split; [|intros _ H; now rewrite H in Hk].
    unfold continue_unmounted.
    destruct (outcome (handleSave_added c coll settled)) as [[x|]|err];
      exact Hinv.
  - destruct (orphans p !! k) as [[c coll|c testDoc]|] eqn:Hk;
      try discriminate. injection Hd as <-.
    split; [exact Hinv | intros _ H; now rewrite H in Hk].
Qed.

Lemma one_save_run es : ∀ p0 p,
  dispatch_all p0 es = Some p →
  one_save p0 →
  one_save p
  ∧ (existsb is_remount es = false → orphans p0 = [] → orphans p = []).
Proof.
  induction es as [|e es IH]; intros p0 p Hrun Hinv.
  - injection Hrun as <-. split; [exact Hinv | intros _ H; exact H].
  - cbn in Hrun. destruct (dispatch p0 e) as [p1|] eqn:Hd; [|discriminate].
    destruct (one_save_step _ _ _ Hinv Hd) as [H1 H2].
    destruct (IH p1 p Hrun H1) as [H3 H4].
    split; [exact H3|]. intros Hre Hno. cbn in Hre.
    apply orb_false_iff in Hre as [Hre Hres].
    exact (H4 Hres (H2 Hre Hno)).
Qed.

(** X12. The panel that is mounted has at most one save of its own in
    flight, whatever the user does, tab switches among it, and however the
    calls settle; its save control is disabled exactly while it has one,
    and that save tests the credentials the handler was called with.  The
    panel starts from any state that is not loading, which every newly
    mounted panel is.  A switch of tab does not cancel a save: the panel
    mounted afterwards is not loading and its save control enabled while
    the save of the earlier one is still in flight.  Where the tab was
    never left, no such save exists, and at most one save is in flight at
    all. *)
Theorem saves_one_at_a_time (st : gmap string string) (s : State)
  (es : list Event) (p : Panel) :
  isLoading s = false →
  dispatch_all (opened s st) es = Some p →
  ((saves p = [] ∧ save_disabled (panel p) = false)
   ∨ (∃ x, saves p = [x] ∧ coherent x ∧ save_disabled (panel p) = true))
  ∧ (existsb is_remount es = false → orphans p = []).
Proof.
  intros Hl Hrun.
  assert (Hinit : one_save (opened s st)).
  { left. split; [reflexivity | exact Hl]. }
  destruct (one_save_run es _ _ Hrun Hinit) as [H1 H2].
  split; [exact H1|]. intros Hre. exact (H2 Hre eq_refl).
Qed.

Lemma saves_one_at_a_time_witness :
  ∃ p, dispatch_all
         (opened {| isLoading := false; credentials := Sample.profile |}
            Sample.storage_with_profile)
         [Click Sample.world_online; Input "apiKey" "other";
          Added 0 (Resolved "doc-1")]
       = Some p
       ∧ length (saves p) = 1%nat ∧ save_disabled (panel p) = true
       ∧ orphans p = [].
Proof.
  eexists. split; [reflexivity|].
  destruct (saves_one_at_a_time Sample.storage_with_profile
              {| isLoading := false; credentials := Sample.profile |}
              [Click Sample.world_online; Input "apiKey" "other";
               Added 0 (Resolved "doc-1")] _ eq_refl eq_refl)
    as [[[H _]|(x & H1 & _ & H2)] H3].
  - discriminate H.
  - split; [reflexivity|]. split; [exact H2 | exact (H3 eq_refl)].
Defined.

(** A switch of tab while a save is in flight: the save control of the
    panel mounted afterwards is enabled, a second save begins, and the two
    are in flight together. *)
Lemma remount_enables_save :
  ∃ p, dispatch_all
         (opened {| isLoading := false; credentials := Sample.profile |} ∅)
         [Click Sample.world_online; Remount Sample.profile;
          Input "projectId" "p"; Input "apiKey" "k";
          Input "authDomain" "d"; Click Sample.world_online]
       = Some p
       ∧ length (orphans p) = 1%nat ∧ length (saves p) = 1%nat
       ∧ save_disabled (panel p) = true.
Proof. eexists. split; [reflexivity|]. repeat split. Qed.

Lemma after_unstored t rest p :
  stored t = [] → saves_reported t = [] →
  storage (after t rest p) = storage p
  ∧ reported (after t rest p) = reported p.
Proof.
  intros Hs Hr. unfold after. cbn.
  now rewrite (storage_after_unstored _ _ Hs), Hr, app_nil_r.
Qed.

Lemma continue_unstored m rest p :
  stored (trace m) = [] → saves_reported (trace m) = [] →
  storage (continue m rest p) = storage p
  ∧ reported (continue m rest p) = reported p.
Proof.
  intros Hs Hr. unfold continue.
  destruct (outcome m) as [[x|]|e]; now apply after_unstored.
Qed.

Lemma after_unmounted_unstored t rest p :
  stored t = [] → saves_reported t = [] →
  storage (after_unmounted t rest p) = storage p
  ∧ reported (after_unmounted t rest p) = reported p.
Proof.
  intros Hs Hr. unfold after_unmounted. cbn.
  now rewrite (storage_after_unstored _ _ Hs), Hr, app_nil_r.
Qed.

Lemma continue_unmounted_unstored m rest p :
  stored (trace m) = [] → saves_reported (trace m) = [] →
  storage (continue_unmounted m rest p) = storage p
  ∧ reported (continue_unmounted m rest p) = reported p.
Proof.
  intros Hs Hr. unfold continue_unmounted.
  destruct (outcome m) as [[x|]|e]; now apply after_unmounted_unstored.
Qed.

Lemma unstored_step p e p' :
  is_deleted e = false → dispatch p e = Some p' →
  storage p' = storage p ∧ reported p' = reported p.
Proof.
  intros He Hd.
  destruct e as [field value|w|k settled|k settled|shown|k settled|k settled];
    cbn -[handleSave_begin mounted_over] in Hd.
  - injection Hd as <-. now apply after_unstored.
  - destruct (save_disabled (panel p)); [discriminate|].
    injection Hd as <-.
    destruct (begin_cases w (panel p))
      as [(_ & Hs & Hr & _)|(coll & _ & _ & _ & Hs & Hr & _)];
      now apply continue_unstored.
  - destruct (saves p !! k) as [[c coll|c testDoc]|]; try discriminate.
    injection Hd as <-. destruct settled; now apply continue_unstored.
  - destruct (saves p !! k) as [[c coll|c testDoc]|]; try discriminate.
    injection Hd as <-. destruct settled as [u|e]; [discriminate He|].
    now apply after_unstored.
  - injection Hd as <-. split; reflexivity.
  - destruct (orphans p !! k) as [[c coll|c testDoc]|]; try discriminate.
    injection Hd as <-.
    destruct settled; now apply continue_unmounted_unstored.
  - destruct (orphans p !! k) as [[c coll|c testDoc]|]; try discriminate.
    injection Hd as <-. destruct settled as [u|e]; [discriminate He|].
    now apply after_unmounted_unstored.
Qed.

(** X13. Nothing is written to local storage and nothing is reported to
    the owner before a [deleteDoc] of the test document has resolved: along
    any events of the panel without one, storage and the owner are as they
    were when the panel opened. *)
Theorem nothing_stored_before_delete_resolves (s : State)
  (st : gmap string string) (es : list Event) (p : Panel) :
  existsb is_deleted es = false →
  dispatch_all (opened s st) es = Some p →
  storage p = st ∧ reported p = [].
Proof.
  intros Hes Hrun.
  change (storage p = storage (opened s st)
          ∧ reported p = reported (opened s st)).
  revert Hes Hrun. generalize (opened s st) as p0.
  induction es as [|e es IH]; intros p0 Hes Hrun.
  - injection Hrun as <-. split; reflexivity.
  - cbn in Hes. apply orb_false_iff in Hes as [He Hes].
    cbn in Hrun. destruct (dispatch p0 e) as [p1|] eqn:Hd; [|discriminate].
    destruct (unstored_step _ _ _ He Hd) as [<- <-]. now apply IH.
Qed.

Lemma nothing_stored_before_delete_resolves_witness :
  ∃ p, dispatch_all
         (opened {| isLoading := false; credentials := Sample.profile |} ∅)
         [Click Sample.world_online; Added 0 (Resolved "doc-1");
          Deleted 0 (Rejected "permission-denied")]
       = Some p
       ∧ storage p = ∅ ∧ reported p = [].
Proof.
  eexists. split; [reflexivity|].
  apply (nothing_stored_before_delete_resolves
           {| isLoading := false; credentials := Sample.profile |} ∅
           [Click Sample.world_online; Added 0 (Resolved "doc-1");
            Deleted 0 (Rejected "permission-denied")]); reflexivity.
Defined.





End Save_flow.

(** ** The page: every path of a submission *)

Section Page_more.
Import SDK Index.

(** [handleSubmit] looks at the connected flag and at the record, and at
    nothing else of the state. *)
Lemma handleSubmit_reads w st a b :
  isConnected a = isConnected b → record a = record b →
  handleSubmit w st a = handleSubmit w st b.
Proof. intros Hc Hr. unfold handleSubmit. now rewrite Hc, Hr. Qed.

(** The three shapes of the trace of [handleSubmit]. *)
Lemma handleSubmit_cases w st s :
  (isConnected s = false
   ∧ trace (handleSubmit w st s)
     = [Toasted connection_required; SetActiveTab "config"])
  ∨ (isConnected s = true
     ∧ (ecg (record s) = EmptyString ∨ laudo (record s) = EmptyString
        ∨ descricao (record s) = EmptyString)
     ∧ trace (handleSubmit w st s) = [Toasted fields_required])
  ∨ (isConnected s = true
     ∧ ecg (record s) ≠ EmptyString ∧ laudo (record s) ≠ EmptyString
     ∧ descricao (record s) ≠ EmptyString
     ∧ trace (handleSubmit w st s)
       = [SetIsSubmitting true] ++ trace (write_record w st (record s))
         ++ match outcome (write_record w st (record s)) with
            | Resolved docRef =>
                [ ConsoleLog "Document written with ID: ";
                  Toasted (sent_toast (id docRef));
                  SetRecord empty_record;
                  SetIsSubmitting false ]
            | Rejected error =>
                [ ConsoleError "Error submitting to Firestore:" error;
                  Toasted send_failed;
                  SetIsSubmitting false ]
            end).
Proof.
  destruct (isConnected s) eqn:Hc.
  2:{ left. split; [reflexivity|]. unfold handleSubmit. now rewrite Hc. }
  right.
  destruct (String.eqb_spec (ecg (record s)) EmptyString) as [He|He];
    [|destruct (String.eqb_spec (laudo (record s)) EmptyString) as [Hl|Hl];
      [|destruct (String.eqb_spec (descricao (record s)) EmptyString)
          as [Hd|Hd]]].
  4:{ right. repeat split; try assumption.
      exact (handleSubmit_attempt w st s Hc He Hl Hd). }
  all: left; split; [reflexivity|]; split; [tauto|];
    unfold handleSubmit; rewrite Hc, incomplete_record by tauto; reflexivity.
Qed.

(** X15. Connected, but the stored credentials cannot be used: the key is
    gone from local storage, or what it holds is not JSON, or is the JSON
    [null].  [handleSubmit] with a complete record then raises and lowers
    the submitting flag around one logged error and the generic failure
    notice; the SDK is not called at all, and the tab and the record stay
    as they are. *)
Theorem submit_with_unusable_profile (w : World)
  (st : gmap string string) (s : State) :
  isConnected s = true →
  ecg (record s) ≠ EmptyString → laudo (record s) ≠ EmptyString →
  descricao (record s) ≠ EmptyString →
  getItem st localStorage_key = None
  ∨ (∃ saved, getItem st localStorage_key = Some saved
              ∧ (JSON.parse saved = None
                 ∨ JSON.parse saved = Some JSON.JNull)) →
  let t := trace (handleSubmit w st s) in
  (∃ reason,
     t = [ SetIsSubmitting true;
           ConsoleError "Error submitting to Firestore:" reason;
           Toasted send_failed;
           SetIsSubmitting false ])
  ∧ remote_calls t = []
  ∧ activeTab (apply_effects t s) = activeTab s
  ∧ record (apply_effects t s) = record s.
Proof.
  intros Hc He Hl Hd Hst. cbn zeta.
  rewrite (handleSubmit_attempt w st s Hc He Hl Hd).
  assert (∃ reason, write_record w st (record s) = ([], Rejected reason))
    as [reason ->].
  { unfold write_record, property.
    destruct Hst as [->|(saved & -> & Hp)]; [eexists; reflexivity|].
    destruct (JS.truthy saved); [|eexists; reflexivity].
    cbn -[JSON.parse]. destruct Hp as [->| ->]; eexists; reflexivity. }
  split; [exists reason; reflexivity|]. repeat split.
Qed.

Lemma submit_with_unusable_profile_witness :
  trace (handleSubmit Sample.world_online
           (setItem localStorage_key "null" ∅) Sample.ready_page)
  = [ SetIsSubmitting true;
      ConsoleError "Error submitting to Firestore:" "TypeError";
      Toasted send_failed;
      SetIsSubmitting false ].
Proof.
  destruct (submit_with_unusable_profile Sample.world_online
              (setItem localStorage_key "null" ∅) Sample.ready_page
              eq_refl ltac:(discriminate) ltac:(discriminate)
              ltac:(discriminate)
              (or_intror (ex_intro _ "null"
                            (conj eq_refl (or_intror eq_refl)))))
    as [[reason H] _].
  reflexivity.
Defined.

(** X16. Every run of [handleSubmit] shows exactly one notice: connection
    required, fields required, sent (with the identifier of the document),
    or the generic failure. *)
Theorem submit_shows_one_notice (w : World) (st : gmap string string)
  (s : State) :
  toasts (trace (handleSubmit w st s))
  = [ if negb (isConnected s) then connection_required
      else if negb (JS.truthy (ecg (record s)))
              || negb (JS.truthy (laudo (record s)))
              || negb (JS.truthy (descricao (record s)))
      then fields_required
      else match outcome (write_record w st (record s)) with
           | Resolved docRef => sent_toast (id docRef)
           | Rejected _ => send_failed
           end ].
Proof.
  destruct (handleSubmit_cases w st s)
    as [[Hc ->]|[(Hc & Hr & ->)|(Hc & He & Hl & Hd & ->)]]; rewrite Hc.
  - reflexivity.
  - cbn [negb]. now rewrite (incomplete_record _ Hr).
  - cbn [negb]. rewrite (complete_record _ He Hl Hd).
    destruct (quiet_effects _ (write_record_effects w st (record s)))
      as (_ & _ & Ht & _).
    unfold toasts in *. rewrite !omap_app, Ht.
    now destruct (outcome (write_record w st (record s))).
Qed.

Lemma handleSubmit_keeps_connection w st s s0 :
  isConnected (apply_effects (trace (handleSubmit w st s)) s0)
  = isConnected s0.
Proof.
  destruct (handleSubmit_cases w st s)
    as [[Hc ->]|[(Hc & Hr & ->)|(Hc & He & Hl & Hd & ->)]];
    try reflexivity.
  rewrite !apply_effects_app,
    (apply_quiet_effects _ _ (write_record_effects w st (record s))).
  now destruct (outcome (write_record w st (record s))).
Qed.

(** X17. [handleSubmit] keeps to the page: it writes nothing to local
    storage and never changes the connected flag; it changes the tab only
    when no profile is active; past the two guards it leaves the submitting
    flag down, whether the write resolved, was rejected or was never
    reached, and before them it does not touch the flag.  [s0] is the state
    its setters land on. *)
Theorem submit_keeps_to_the_page (w : World) (st : gmap string string)
  (s s0 : State) :
  let t := trace (handleSubmit w st s) in
  let s' := apply_effects t s0 in
  stored t = []
  ∧ isConnected s' = isConnected s0
  ∧ (isConnected s = true → activeTab s' = activeTab s0)
  ∧ (isConnected s = true ∧ ecg (record s) ≠ EmptyString
     ∧ laudo (record s) ≠ EmptyString ∧ descricao (record s) ≠ EmptyString →
     isSubmitting s' = false)
  ∧ (isConnected s = false ∨ ecg (record s) = EmptyString
     ∨ laudo (record s) = EmptyString ∨ descricao (record s) = EmptyString →
     isSubmitting s' = isSubmitting s0).
Proof.
  cbn zeta. split; [|split; [apply handleSubmit_keeps_connection|]].
  - destruct (handleSubmit_cases w st s)
      as [[Hc ->]|[(Hc & Hr & ->)|(Hc & He & Hl & Hd & ->)]];
      try reflexivity.
    destruct (quiet_effects _ (write_record_effects w st (record s)))
      as (Hs & _).
    unfold stored in *. rewrite !omap_app, Hs.
    now destruct (outcome (write_record w st (record s))).
  - destruct (handleSubmit_cases w st s)
      as [[Hc ->]|[(Hc & Hr & ->)|(Hc & He & Hl & Hd & ->)]].
    + split; [intros H; congruence|]. split; [intros [H _]; congruence|].
      reflexivity.
    + split; [reflexivity|]. split; [tauto|reflexivity].
    + rewrite !apply_effects_app,
        (apply_quiet_effects _ _ (write_record_effects w st (record s))).
      destruct (outcome (write_record w st (record s)));
        (split; [reflexivity|]); (split; [reflexivity|]);
        intros [H|[H|[H|H]]]; congruence.
Qed.

Lemma run_keeps_connection es : ∀ s,
  isConnected s = true → isConnected (run s es) = true.
Proof.
  induction es as [|e es IH]; intros s Hs; [exact Hs|].
  apply (IH (step s e)). unfold step.
  destruct e as [tab|f v|c|w st]; try first [exact Hs|reflexivity].
  cbn [handle]. destruct (isSubmitting s); [exact Hs|].
  now rewrite handleSubmit_keeps_connection.
Qed.

(** X18. Once connected, always connected.  If the page is connected, or
    the panel reports a save at some point, the page is connected after
    all the events that follow: no event lowers the flag, not a failed
    submission and not one that finds local storage emptied. *)
Theorem connection_is_never_lost (s : State) (es : list Event) :
  isConnected s = true ∨ existsb is_save es = true →
  isConnected (run s es) = true.
Proof.
  intros [Hs|Hes]; [now apply run_keeps_connection|].
  revert s. induction es as [|e es IH]; intros s; [discriminate Hes|].
  cbn in Hes. destruct e as [tab|f v|c|w st]; cbn in Hes;
    try (apply (IH Hes)).
  apply (run_keeps_connection es). reflexivity.
Qed.

Lemma connection_is_never_lost_witness :
  isConnected
    (run initial
       [CredentialsSave Sample.profile; SubmitClick Sample.world_offline ∅;
        TabChange "data"; SubmitClick Sample.world_online ∅])
  = true.
Proof.
  apply (connection_is_never_lost initial
           [CredentialsSave Sample.profile;
            SubmitClick Sample.world_offline ∅;
            TabChange "data"; SubmitClick Sample.world_online ∅]).
  right. reflexivity.
Defined.

(** X19. After a submission that went through, the next one is refused for
    missing fields, whatever the world and the storage then are: the record
    was reset, so the same document is not written twice by a second
    click. *)
Theorem resubmit_after_success_is_refused (w w' : World)
  (st st' : gmap string string) (s : State) (docRef : DocRef) :
  isConnected s = true →
  ecg (record s) ≠ EmptyString → laudo (record s) ≠ EmptyString →
  descricao (record s) ≠ EmptyString →
  outcome (write_record w st (record s)) = Resolved docRef →
  let s' := apply_effects (trace (handleSubmit w st s)) s in
  trace (handleSubmit w' st' s') = [Toasted fields_required]
  ∧ remote_calls (trace (handleSubmit w' st' s')) = [].
Proof.
  intros Hc He Hl Hd Ho. cbn zeta.
  assert (H : trace (handleSubmit w' st'
                       (apply_effects (trace (handleSubmit w st s)) s))
              = [Toasted fields_required]).
  { unfold handleSubmit at 1.
    rewrite (handleSubmit_keeps_connection w st s s), Hc.
    rewrite (handleSubmit_attempt w st s Hc He Hl Hd), Ho.
    change (SetIsSubmitting true :: ?a ++ ?b)
      with ([SetIsSubmitting true] ++ a ++ b).
    rewrite !apply_effects_app,
      (apply_quiet_effects _ _ (write_record_effects w st (record s))).
    reflexivity. }
  now rewrite H.
Qed.

Lemma resubmit_after_success_is_refused_witness :
  trace (handleSubmit Sample.world_online Sample.storage_with_profile
           (apply_effects
              (trace (handleSubmit Sample.world_online
                        Sample.storage_with_profile Sample.ready_page))
              Sample.ready_page))
  = [Toasted fields_required].
Proof.
  apply (resubmit_after_success_is_refused Sample.world_online
           Sample.world_online Sample.storage_with_profile
           Sample.storage_with_profile Sample.ready_page
           {| parent :=
                {| db := {| options :=
                              FirestoreConfig.firebaseConfig Sample.profile;
                            app_name := "medical-app-1700000000000" |};
                   path := JSON.JString "medical_records" |};
              id := "doc-1" |});
    first [reflexivity | discriminate].
Defined.

(** X20. After a submission that failed, the page is ready for the same
    submission again: the record and the connected flag are what they were
    and the submitting flag is down, so the next click runs [handleSubmit]
    exactly as on the state before the failed attempt. *)
Theorem retry_after_failure (w w' : World) (st st' : gmap string string)
  (s : State) (reason : string) :
  isConnected s = true →
  ecg (record s) ≠ EmptyString → laudo (record s) ≠ EmptyString →
  descricao (record s) ≠ EmptyString →
  outcome (write_record w st (record s)) = Rejected reason →
  let s' := apply_effects (trace (handleSubmit w st s)) s in
  record s' = record s
  ∧ isSubmitting s' = false
  ∧ handleSubmit w' st' s' = handleSubmit w' st' s.
Proof.
  intros Hc He Hl Hd Ho. cbn zeta.
  assert (Hr : record (apply_effects (trace (handleSubmit w st s)) s)
               = record s
               ∧ isSubmitting
                   (apply_effects (trace (handleSubmit w st s)) s) = false).
  { rewrite (handleSubmit_attempt w st s Hc He Hl Hd), Ho.
    change (SetIsSubmitting true :: ?a ++ ?b)
      with ([SetIsSubmitting true] ++ a ++ b).
    rewrite !apply_effects_app,
      (apply_quiet_effects _ _ (write_record_effects w st (record s))).
    split; reflexivity. }
  destruct Hr as [Hr Hf]. split; [exact Hr|]. split; [exact Hf|].
  apply handleSubmit_reads; [apply handleSubmit_keeps_connection | exact Hr].
Qed.

Lemma retry_after_failure_witness :
  handleSubmit Sample.world_online Sample.storage_with_profile
    (apply_effects
       (trace (handleSubmit Sample.world_offline Sample.storage_with_profile
                 Sample.ready_page))
       Sample.ready_page)
  = handleSubmit Sample.world_online Sample.storage_with_profile
      Sample.ready_page.
Proof.
  apply (retry_after_failure Sample.world_offline Sample.world_online
           Sample.storage_with_profile Sample.storage_with_profile
           Sample.ready_page "unavailable");
    first [reflexivity | discriminate].
Defined.

End Page_more.

(** ** From the panel to the page *)

Section Save_then_submit.
Import SDK.



End Save_then_submit.

(** ** The page and its writes in flight *)

Section Submit_flow.
Import SDK Index SubmitFlow.

Ltac by_world :=
  cbn -[getItem JSON.parse JSON.get pretty];
  repeat match goal with
         | |- context [match ?x with _ => _ end] =>
             lazymatch x with
             | getItem _ _ => idtac
             | JS.truthy _ => idtac
             | JSON.parse _ => idtac
             | JSON.get _ _ => idtac
             | initializeApp_error _ _ _ => idtac
             | getFirestore_error _ _ => idtac
             | collection_error _ _ _ => idtac
             | addDoc_outcome _ _ _ => idtac
             end;
             destruct x eqn:?; cbn -[getItem JSON.parse JSON.get pretty]
         end.

(** The two parts of [handleSubmit] make up the whole, when the write
    settles as the store decides. *)
Lemma handleSubmit_parts w st s :
  handleSubmit w st s
  = (started ← handleSubmit_begin w st s;
     match started with
     | Some coll =>
         handleSubmit_resume coll
           (addDoc_outcome (firebase w) coll (record_document w (record s)))
     | None => mret tt
     end).
Proof.
  unfold handleSubmit, handleSubmit_begin.
  destruct (negb (isConnected s)); [reflexivity|].
  destruct (negb (JS.truthy (ecg (record s)))
            || negb (JS.truthy (laudo (record s)))
            || negb (JS.truthy (descricao (record s)))); [reflexivity|].
  unfold write_record, open_collection, handleSubmit_resume, written,
    property, Firestore.initializeApp, Firestore.getFirestore,
    Firestore.collection, Firestore.addDoc.
  by_world; reflexivity.
Qed.

Lemma submit_open_collection_quiet w st :
  Forall sdk_or_console (trace (open_collection w st)).
Proof. unfold open_collection, property. quiet. Qed.

Lemma handleSubmit_begin_attempt w st s :
  isConnected s = true →
  negb (JS.truthy (ecg (record s))) || negb (JS.truthy (laudo (record s)))
  || negb (JS.truthy (descricao (record s))) = false →
  handleSubmit_begin w st s
  = match outcome (open_collection w st) with
    | Resolved coll =>
        ([SetIsSubmitting true] ++ trace (open_collection w st)
           ++ [AddDoc coll (record_document w (record s))],
         Resolved (Some coll))
    | Rejected error =>
        ([SetIsSubmitting true] ++ trace (open_collection w st)
           ++ [ ConsoleError "Error submitting to Firestore:" error;
                Toasted send_failed; SetIsSubmitting false ],
         Resolved None)
    end.
Proof.
  intros Hc Hr. unfold handleSubmit_begin. rewrite Hc, Hr.
  cbn -[open_collection].
  destruct (open_collection w st) as [t [coll|e]]; cbn;
    rewrite <- ?app_assoc; reflexivity.
Qed.

(** What a click on the submit control leaves behind. *)
Lemma submit_begin_cases w st s :
  (outcome (handleSubmit_begin w st s) = Resolved None
   ∧ ∀ s0, isSubmitting s0 = false →
       isSubmitting (apply_effects (trace (handleSubmit_begin w st s)) s0)
       = false)
  ∨ (∃ coll,
       outcome (handleSubmit_begin w st s) = Resolved (Some coll)
       ∧ ∀ s0, isSubmitting
                 (apply_effects (trace (handleSubmit_begin w st s)) s0)
               = true).
Proof.
  destruct (isConnected s) eqn:Hc.
  2:{ left. unfold handleSubmit_begin. rewrite Hc. split; [reflexivity|].
      intros s0 H. exact H. }
  destruct (negb (JS.truthy (ecg (record s)))
            || negb (JS.truthy (laudo (record s)))
            || negb (JS.truthy (descricao (record s)))) eqn:Hr.
  { left. unfold handleSubmit_begin. rewrite Hc, Hr. split; [reflexivity|].
    intros s0 H. exact H. }
  rewrite (handleSubmit_begin_attempt w st s Hc Hr).
  pose proof (submit_open_collection_quiet w st) as Hq.
  destruct (outcome (open_collection w st)) as [coll|e];
    [right; exists coll|left]; (split; [reflexivity|]);
    intros s0; intros; cbn [trace fst];
    rewrite !apply_effects_app, (apply_quiet_effects _ _ Hq); reflexivity.
Qed.

Lemma resume_effects coll settled s0 :
  let s' := apply_effects (trace (handleSubmit_resume coll settled)) s0 in
  isSubmitting s' = false
  ∧ record s' = match settled with
                | Resolved _ => empty_record
                | Rejected _ => record s0
                end.
Proof. destruct settled; split; reflexivity. Qed.

Lemma one_write_step p e p' :
  one_write p → dispatch p e = Some p' → one_write p'.
Proof.
  intros Hinv Hd. destruct e as [tab|f v|c|w st|k settled];
    cbn -[handleSubmit_begin handleSubmit_resume] in Hd.
  - injection Hd as <-. exact Hinv.
  - injection Hd as <-. exact Hinv.
  - injection Hd as <-. exact Hinv.
  - destruct (isSubmitting (page p)) eqn:Hf; [discriminate|].
    injection Hd as <-.
    destruct Hinv as [[Hw _]|(x & _ & Hb)]; [|congruence].
    unfold launch.
    destruct (submit_begin_cases w st (page p))
      as [(Ho & Hflag)|(coll & Ho & Hflag)]; rewrite Ho.
    + left. split; [exact Hw | now apply Hflag].
    + right. exists coll. cbn [writes page]. rewrite Hw.
      split; [reflexivity | apply Hflag].
  - destruct (writes p !! k) as [coll|] eqn:Hk; [|discriminate].
    cbn -[handleSubmit_resume] in Hd. injection Hd as <-.
    destruct Hinv as [[Hw _]|(x & Hw & _)]; [now rewrite Hw in Hk|].
    rewrite Hw in Hk |- *. destruct k as [|k]; [|discriminate].
    left. split; [reflexivity|]. apply resume_effects.
Qed.

Lemma mount_not_submitting st : isSubmitting (mount st) = false.
Proof.
  unfold mount, useEffect_mount.
  destruct (getItem st localStorage_key) as [saved|];
    [destruct (JS.truthy saved)|]; reflexivity.
Qed.

(** X22. On the mounted page at most one write of a record is in flight,
    whatever the user does and however the writes settle, and the submit
    control is disabled exactly while one is. *)
Theorem writes_one_at_a_time (st : gmap string string) (es : list Event)
  (p : Page) :
  dispatch_all (mounted st) es = Some p →
  (writes p = [] ∧ isSubmitting (page p) = false)
  ∨ (∃ coll, writes p = [coll] ∧ isSubmitting (page p) = true).
Proof.
  intros Hrun. change (one_write p).
  assert (Hinit : one_write (mounted st)).
  { left. split; [reflexivity | apply mount_not_submitting]. }
  revert Hrun Hinit. generalize (mounted st) as p0.
  induction es as [|e es IH]; intros p0 Hrun Hinv.
  - now injection Hrun as <-.
  - cbn in Hrun. destruct (dispatch p0 e) as [p1|] eqn:Hd; [|discriminate].
    exact (IH p1 Hrun (one_write_step _ _ _ Hinv Hd)).
Qed.

Lemma writes_one_at_a_time_witness :
  ∃ p, dispatch_all (mounted Sample.storage_with_profile)
         [Field Ecg "data:image/png;base64,XX";
          Field Laudo "data:image/png;base64,YY";
          Field Descricao "ok";
          Click Sample.world_online Sample.storage_with_profile;
          Field Descricao "typed meanwhile"]
       = Some p
       ∧ length (writes p) = 1%nat ∧ isSubmitting (page p) = true.
Proof.
  eexists. split; [reflexivity|].
  destruct (writes_one_at_a_time Sample.storage_with_profile
              [Field Ecg "data:image/png;base64,XX";
               Field Laudo "data:image/png;base64,YY";
               Field Descricao "ok";
               Click Sample.world_online Sample.storage_with_profile;
               Field Descricao "typed meanwhile"] _ eq_refl)
    as [[H _]|(coll & H1 & H2)].
  - discriminate H.
  - split; [reflexivity | exact H2].
Defined.

(** Typing in the fields leaves the writes in flight alone. *)
Lemma fields_only_edit es : ∀ p,
  forallb is_field es = true →
  ∃ p', dispatch_all p es = Some p' ∧ writes p' = writes p.
Proof.
  induction es as [|e es IH]; intros p Hes.
  - exists p. split; reflexivity.
  - cbn in Hes. apply andb_true_iff in Hes as [He Hes].
    destruct e as [|f v| | |]; try discriminate He.
    destruct (IH (on_page [SetRecord (with_record_field (record (page p)) f v)]
                    p) Hes) as (p' & Hrun & Hw).
    exists p'. split; [exact Hrun | exact Hw].
Qed.

(** X23. What is typed while a write is in flight is lost when the write
    resolves and kept when it is rejected: after any edits of the fields
    the write is still the one in flight; when it then resolves the record
    is reset to empty, edits included, and when it is rejected the record
    is left with the edits. *)
Theorem edits_while_write_pending (p : Page) (coll : CollectionRef)
  (es : list Event) :
  writes p = [coll] →
  forallb is_field es = true →
  ∃ p1,
    dispatch_all p es = Some p1
    ∧ writes p1 = [coll]
    ∧ (∀ i, ∃ p2, dispatch p1 (Settle 0 (Resolved i)) = Some p2
                  ∧ record (page p2) = empty_record ∧ writes p2 = [])
    ∧ (∀ reason, ∃ p3, dispatch p1 (Settle 0 (Rejected reason)) = Some p3
                       ∧ record (page p3) = record (page p1)
                       ∧ writes p3 = []).
Proof.
  intros Hw Hes. destruct (fields_only_edit es p Hes) as (p1 & Hrun & Hw1).
  exists p1. rewrite Hw in Hw1. split; [exact Hrun|]. split; [exact Hw1|].
  split; intros x; unfold dispatch; rewrite Hw1;
    eexists; (split; [reflexivity|]); split; reflexivity.
Qed.

Lemma edits_while_write_pending_witness :
  ∃ p1 p2,
    dispatch_all
      {| page := Sample.ready_page;
         writes := [{| db := {| options :=
                                  FirestoreConfig.firebaseConfig Sample.profile;
                                app_name := "medical-app-1700000000000" |};
                       path := JSON.JString "medical_records" |}] |}
      [Field Descricao "typed meanwhile"]
    = Some p1
    ∧ descricao (record (page p1)) = "typed meanwhile"
    ∧ dispatch p1 (Settle 0 (Resolved "doc-1")) = Some p2
    ∧ record (page p2) = empty_record.
Proof.
  destruct (edits_while_write_pending
              {| page := Sample.ready_page;
                 writes :=
                   [{| db := {| options :=
                                  FirestoreConfig.firebaseConfig Sample.profile;
                                app_name := "medical-app-1700000000000" |};
                       path := JSON.JString "medical_records" |}] |}
              _ [Field Descricao "typed meanwhile"] eq_refl eq_refl)
    as (p1 & Hrun & _ & Hok & _).
  destruct (Hok "doc-1") as (p2 & Hd & Hr & _).
  exists p1, p2. split; [exact Hrun|].
  split; [cbn in Hrun; injection Hrun as <-; reflexivity|].
  split; [exact Hd | exact Hr].
Defined.

End Submit_flow.
